(** * Verification of [core/scripts/migrate_archives.py]

    A shallow embedding of the archive-migration script: the database
    session, the logger and the file system are explicit state (a trace of
    the operations requested, the files on disk, the module-level global
    [RENAME_COLUMNS]); Python exceptions are an error result that keeps the
    state reached when they were raised. *)

From Stdlib Require Import String Ascii List Bool Arith Lia.
From stdpp Require Import base option list gmap strings.
Import ListNotations.

Local Open Scope string_scope.
Local Open Scope list_scope.

(* ================================================================== *)
(** ** Python values the script handles *)

(** An exception: its class and its argument ([KeyError('target_schema')]). *)
Record exn := Raise { exn_class : string; exn_arg : string }.

Definition KeyError (key : string) : exn := Raise "KeyError" key.
Definition IndexError : exn := Raise "IndexError" "list index out of range".

(** The pairs of a rename mapping, held in a tuple or in a list.  The two
    differ in what [+=] does to an object reached through two names. *)
Inductive pyseq :=
| PyTuple (items : list (string * string))
| PyList (items : list (string * string)).

Definition py_items (s : pyseq) : list (string * string) :=
  match s with PyTuple l => l | PyList l => l end.

(** [local += extra] where [local] was bound to the object [shared]:
    the new binding of the local name, and the object [shared] afterwards.
    A tuple has no in-place addition, so a new tuple is built; a list is
    extended in place. *)
Definition py_iadd (shared : pyseq) (extra : list (string * string))
  : pyseq * pyseq :=
  match shared with
  | PyTuple l => (PyTuple (l ++ extra), PyTuple l)
  | PyList l => (PyList (l ++ extra), PyList (l ++ extra))
  end.

(** [sep.join(parts)] *)
Fixpoint str_join (sep : string) (parts : list string) : string :=
  match parts with
  | [] => ""
  | [p] => p
  | p :: rest => p +:+ sep +:+ str_join sep rest
  end.

(** [s.startswith(c)] and [s.endswith(c)] for a one-character [c]. *)
Definition startswith_char (c : ascii) (s : string) : bool :=
  match s with
  | String a _ => Ascii.eqb a c
  | EmptyString => false
  end.

Fixpoint endswith_char (c : ascii) (s : string) : bool :=
  match s with
  | EmptyString => false
  | String a EmptyString => Ascii.eqb a c
  | String _ rest => endswith_char c rest
  end.

(** [os.path.join(a, b)] of posixpath, for two components. *)
Definition os_path_join (a b : string) : string :=
  if startswith_char "/" b then b
  else if orb (String.eqb a "") (endswith_char "/" a) then a +:+ b
  else a +:+ "/" +:+ b.

(* ================================================================== *)
(** ** Relations *)

Record QuotePolicy := {
  quote_database : bool;
  quote_schema : bool;
  quote_identifier : bool
}.

(** Modelled from the spec: the relation class ([adapter.Relation], dbt's
    BaseRelation) is not part of the script.  Spec section 3: a table
    reference is a database name, a schema name and an identifier with a
    per-part quoting policy; it is immutable, and a reference with another
    name is a copy with that name substituted. *)
Record Relation := {
  database : string;
  schema : string;
  identifier : string;
  table_name : string;
  quote_policy : QuotePolicy;
  quote_character : string
}.

(** Modelled from the spec: [Relation.create(database=, schema=,
    identifier=, quote_policy=)]. *)
Definition Relation_create (quote_char : string)
    (db sch ident : string) (policy : QuotePolicy) : Relation :=
  {| database := db; schema := sch; identifier := ident;
     table_name := ident; quote_policy := policy;
     quote_character := quote_char |}.

(** Modelled from the spec:
    [r.incorporate(path={'identifier': name}, table_name=tname)]. *)
Definition incorporate (r : Relation) (name tname : string) : Relation :=
  {| database := database r; schema := schema r; identifier := name;
     table_name := tname; quote_policy := quote_policy r;
     quote_character := quote_character r |}.

Definition quoted (r : Relation) (flag : bool) (part : string) : string :=
  if flag then quote_character r +:+ part +:+ quote_character r else part.

(** Modelled from the spec: [str(relation)], the three parts quoted
    independently per the quoting policy and joined with a dot. *)
Definition relation_str (r : Relation) : string :=
  str_join "."
    [ quoted r (quote_database (quote_policy r)) (database r);
      quoted r (quote_schema (quote_policy r)) (schema r);
      quoted r (quote_identifier (quote_policy r)) (identifier r) ].

(* ================================================================== *)
(** ** The world the script acts on *)

(** What the script asks of its collaborators, in the order asked. *)
Inductive Event :=
| Execute (sql : string)
| CreateTable (db sch tname sql : string)
| BeginQuery
| CommitQuery
| ConnectionAcquire (name : string)
| ConnectionRelease (name : string)
| LogInfo (msg : string)
| Print (msg : string)
| MakeDirectory (path : string)
| MakeFile (path contents : string) (wrote : bool).

Record World := {
  trace : list Event;
  files : gmap string string;
  module_RENAME_COLUMNS : pyseq
}.

Definition emit (e : Event) (w : World) : World :=
  {| trace := trace w ++ [e]; files := files w;
     module_RENAME_COLUMNS := module_RENAME_COLUMNS w |}.

Definition set_files (f : gmap string string) (w : World) : World :=
  {| trace := trace w; files := f;
     module_RENAME_COLUMNS := module_RENAME_COLUMNS w |}.

Definition set_RENAME_COLUMNS (s : pyseq) (w : World) : World :=
  {| trace := trace w; files := files w; module_RENAME_COLUMNS := s |}.

(** The module-level tuple as the script defines it. *)
Definition RENAME_COLUMNS : pyseq :=
  PyTuple [ ("valid_from", "dbt_valid_from");
            ("valid_to", "dbt_valid_to");
            ("scd_id", "dbt_scd_id") ].

(** The world when the module has just been loaded. *)
Definition initial_world (fs : gmap string string) : World :=
  {| trace := []; files := fs; module_RENAME_COLUMNS := RENAME_COLUMNS |}.

(* ================================================================== *)
(** ** Computations: state plus exceptions *)

Inductive result (A : Type) :=
| Ok (a : A)
| Err (e : exn).
Arguments Ok {A} a.
Arguments Err {A} e.

Definition M (A : Type) : Type := World -> result A * World.

Definition ret {A} (a : A) : M A := fun w => (Ok a, w).

Definition raise {A} (e : exn) : M A := fun w => (Err e, w).

Definition bind {A B} (c : M A) (k : A -> M B) : M B :=
  fun w =>
    match c w with
    | (Ok a, w') => k a w'
    | (Err e, w') => (Err e, w')
    end.

Notation "'let!' x ':=' c 'in' k" := (bind c (fun x => k))
  (at level 10, x name, c at level 200, k at level 200).

(** The adapter: its pure helpers, and how its session answers.  The
    session is a collaborator; [rejects] is the exception (if any) it
    raises for an operation, given everything asked of it before. *)
Record Adapter := {
  adapter_type : string;
  quote : string -> string;
  quote_as_configured : string -> string -> string;
  relation_quote_character : string;
  rejects : list Event -> Event -> option exn
}.

(** One operation on the session: it is asked, then answered. *)
Definition session (adapter : Adapter) (e : Event) : M unit :=
  fun w =>
    match rejects adapter (trace w) e with
    | Some x => (Err x, emit e w)
    | None => (Ok tt, emit e w)
    end.

Definition execute (adapter : Adapter) (sql : string) : M unit :=
  session adapter (Execute sql).

Definition create_table (adapter : Adapter) (db sch tname sql : string)
  : M unit :=
  session adapter (CreateTable db sch tname sql).

Definition add_begin_query (adapter : Adapter) : M unit :=
  session adapter BeginQuery.

Definition add_commit_query (adapter : Adapter) : M unit :=
  session adapter CommitQuery.

Definition logger_info (msg : string) : M unit :=
  fun w => (Ok tt, emit (LogInfo msg) w).

Definition print (msg : string) : M unit :=
  fun w => (Ok tt, emit (Print msg) w).

(** Modelled from the spec: [system.make_file] (dbt.clients.system is not
    part of the script).  Spec section 6: returns true if the file is newly
    written, and is a no-op that does not overwrite when it exists. *)
Definition make_file (path contents : string) : M bool :=
  fun w =>
    match files w !! path with
    | Some _ => (Ok false, emit (MakeFile path contents false) w)
    | None =>
        (Ok true,
         emit (MakeFile path contents true)
              (set_files (<[path := contents]> (files w)) w))
    end.

(** Modelled from the spec: [system.make_directory]. *)
Definition make_directory (path : string) : M unit :=
  fun w => (Ok tt, emit (MakeDirectory path) w).

(* ================================================================== *)
(** ** The script *)

Definition backup_relation (adapter : Adapter) (archive_target : Relation)
  : M Relation :=
  let new_name := identifier archive_target +:+ "_dbt_archive_migration_backup" in
  let backup := incorporate archive_target new_name new_name in
  let! _ :=
    execute adapter
      ("create table " +:+ relation_str backup +:+ " as (select * from "
         +:+ relation_str archive_target +:+ ")") in
  let! _ :=
    logger_info ("backed up " +:+ relation_str archive_target +:+ " to "
                   +:+ relation_str backup) in
  ret backup.

(** The statement and the log line of one rename of
    [migrate_archive_alter_table]. *)
Definition rename_sql (adapter : Adapter) (archive_target : Relation)
    (rn : string * string) : string :=
  "alter table " +:+ relation_str archive_target +:+ " rename column "
    +:+ quote adapter (fst rn) +:+ " to " +:+ snd rn.

Definition rename_log (adapter : Adapter) (rn : string * string) : string :=
  "renamed " +:+ quote adapter (fst rn) +:+ " -> " +:+ snd rn.

(** The body of the [for old, new in renames] loop, over the pairs left. *)
Fixpoint rename_loop (adapter : Adapter) (archive_target : Relation)
    (renames : list (string * string)) : M unit :=
  match renames with
  | [] => ret tt
  | rn :: rest =>
      let! _ := execute adapter (rename_sql adapter archive_target rn) in
      let! _ := logger_info (rename_log adapter rn) in
      rename_loop adapter archive_target rest
  end.

(** [renames = RENAME_COLUMNS] binds the local name to the global's
    object; [renames += ...] then goes through [py_iadd]. *)
Definition migrate_archive_alter_table (adapter : Adapter)
    (archive_target : Relation) : M unit :=
  fun w =>
    let shared := module_RENAME_COLUMNS w in
    let '(renames, w1) :=
      if String.eqb (adapter_type adapter) "snowflake"
      then
        let '(local, shared') :=
          py_iadd shared [("dbt_updated_at", "dbt_updated_at")] in
        (local, set_RENAME_COLUMNS shared' w)
      else (shared, w) in
    rename_loop adapter archive_target (py_items renames) w1.

Definition migrate_archive_bigquery (adapter : Adapter)
    (archive_target : Relation) : M unit :=
  fun w =>
    let columns := py_items (module_RENAME_COLUMNS w) in
    let except_str :=
      str_join ", " (map (fun p => quote adapter (fst p)) columns) in
    let rename_str :=
      str_join ", "
        (map (fun p => quote adapter (fst p) +:+ " as " +:+ snd p) columns) in
    let sql :=
      "select * EXCEPT(" +:+ except_str +:+ "), " +:+ rename_str
        +:+ " from " +:+ relation_str archive_target in
    create_table adapter (database archive_target) (schema archive_target)
      (identifier archive_target) sql w.

Definition migrate_archive_table (adapter : Adapter)
    (archive_target : Relation) : M unit :=
  let! _ := print ("starting migration of " +:+ relation_str archive_target) in
  let! result :=
    if String.eqb (adapter_type adapter) "bigquery"
    then migrate_archive_bigquery adapter archive_target
    else migrate_archive_alter_table adapter archive_target in
  let! _ := print ("finished migration of " +:+ relation_str archive_target) in
  ret result.

(* ------------------------------------------------------------------ *)
(** *** The plan: [get_archive_configs] and [collect_migration_targets] *)

(** An archive group of the project configuration: its scalar entries and
    its ['tables'] entry, a list of table dicts. *)
Record ArchiveGroup := {
  entries : gmap string string;
  tables : option (list (gmap string string))
}.

Record Config := {
  credentials_database : string;
  archive : list ArchiveGroup;
  quoting : QuotePolicy;
  archive_paths : list string
}.

(** What a generator does when it is run to its end: the items yielded,
    in order, and the exception that ended it, if one did.  The generators
    of the script touch nothing but the configuration, so a consumer sees
    the same whether it pulls the items one at a time or all at once;
    an item is yielded before anything later in the generator is run. *)
Definition Generated (A : Type) : Type := list A * option exn.

(** [d[key]] *)
Definition getitem (d : gmap string string) (key : string) : result string :=
  match d !! key with
  | Some v => Ok v
  | None => Err (KeyError key)
  end.

(** [d.get(key, default)] *)
Definition dict_get (d : gmap string string) (key default : string) : string :=
  match d !! key with
  | Some v => v
  | None => default
  end.

(** The inner loop of [get_archive_configs]: one copy per table with the
    four resolved address fields set. *)
Definition table_copies (target_database target_schema source_database
    source_schema : string) (tbls : list (gmap string string))
  : list (gmap string string) :=
  map (fun table =>
         <["source_schema" := source_schema]>
           (<["source_database" := source_database]>
              (<["target_schema" := target_schema]>
                 (<["target_database" := target_database]> table))))
      tbls.

Fixpoint get_archive_configs_from (default_database : string)
    (groups : list ArchiveGroup) : Generated (gmap string string) :=
  match groups with
  | [] => ([], None)
  | group :: rest =>
      let target_database :=
        dict_get (entries group) "target_database" default_database in
      match getitem (entries group) "target_schema" with
      | Err e => ([], Some e)
      | Ok target_schema =>
          let source_database :=
            dict_get (entries group) "source_database" default_database in
          match getitem (entries group) "source_schema" with
          | Err e => ([], Some e)
          | Ok source_schema =>
              match tables group with
              | None => ([], Some (KeyError "tables"))
              | Some tbls =>
                  let '(more, ending) :=
                    get_archive_configs_from default_database rest in
                  (table_copies target_database target_schema
                     source_database source_schema tbls ++ more, ending)
              end
          end
      end
  end.

Definition get_archive_configs (cfg : Config) : Generated (gmap string string) :=
  get_archive_configs_from (credentials_database cfg) (archive cfg).

(* ------------------------------------------------------------------ *)
(** *** The generated definition: [template] and [build_archive_data] *)

Definition newline : string := String (ascii_of_nat 10) "".
Definition tab : string := String (ascii_of_nat 9) "".

(** [template.format(source_relation=, kwargs=, name=)] *)
Definition template_format (source_relation kwargs name : string) : string :=
  newline +:+ "{% archive " +:+ name +:+ " %}" +:+ newline
    +:+ "    {{" +:+ newline
    +:+ "        config(" +:+ kwargs +:+ ")" +:+ newline
    +:+ "    }}" +:+ newline
    +:+ "    select * from " +:+ source_relation +:+ newline
    +:+ "{% endarchive %}" +:+ newline.

Section Script.

(** Python's [repr] of a string and [os.path.normpath]: built-ins the
    script calls, taken as given. *)
Variable py_repr : string -> string.
Variable normpath : string -> string.

(** [repr] of a dict of strings, its items in insertion order. *)
Definition repr_dict (items : list (string * string)) : string :=
  "{" +:+ str_join ", "
            (map (fun kv => py_repr (fst kv) +:+ ": " +:+ py_repr (snd kv))
                 items)
      +:+ "}".

Definition result_bind {A B} (r : result A) (k : A -> result B) : result B :=
  match r with
  | Ok a => k a
  | Err e => Err e
  end.

Notation "'try!' x ':=' r 'in' k" := (result_bind r (fun x => k))
  (at level 10, x name, r at level 200, k at level 200).

Definition build_archive_data (adapter : Adapter)
    (archive : gmap string string) : result string :=
  try! source_database := getitem archive "source_database" in
  try! source_schema := getitem archive "source_schema" in
  try! source_table := getitem archive "source_table" in
  let source_relation :=
    [ quote_as_configured adapter source_database "database";
      quote_as_configured adapter source_schema "schema";
      quote_as_configured adapter source_table "identifier" ] in
  try! target_database := getitem archive "target_database" in
  try! target_schema := getitem archive "target_schema" in
  try! updated_at := getitem archive "updated_at" in
  try! unique_key := getitem archive "unique_key" in
  let kwargs :=
    [ ("target_database", target_database);
      ("target_schema", target_schema);
      ("updated_at", updated_at);
      ("strategy", "timestamp");
      ("unique_key", unique_key) ] in
  try! name := getitem archive "target_table" in
  Ok (template_format (str_join "." source_relation) (repr_dict kwargs) name).

(** One turn of the loop of [collect_migration_targets]. *)
Definition migration_target (adapter : Adapter) (cfg : Config)
    (archive : gmap string string) : result (Relation * string) :=
  try! target_database := getitem archive "target_database" in
  try! target_schema := getitem archive "target_schema" in
  try! target_table := getitem archive "target_table" in
  let relation :=
    Relation_create (relation_quote_character adapter)
      target_database target_schema target_table (quoting cfg) in
  try! file_contents := build_archive_data adapter archive in
  Ok (relation, file_contents).

Fixpoint collect_from (adapter : Adapter) (cfg : Config)
    (archives : list (gmap string string)) (ending : option exn)
  : Generated (Relation * string) :=
  match archives with
  | [] => ([], ending)
  | archive :: rest =>
      match migration_target adapter cfg archive with
      | Err e => ([], Some e)
      | Ok item =>
          let '(more, ending') := collect_from adapter cfg rest ending in
          (item :: more, ending')
      end
  end.

Definition collect_migration_targets (adapter : Adapter) (cfg : Config)
  : Generated (Relation * string) :=
  let '(archives, ending) := get_archive_configs cfg in
  collect_from adapter cfg archives ending.

(* ------------------------------------------------------------------ *)
(** *** Writing files, migrating tables, [main] *)

Definition write_migration_file (target : Relation)
    (archive_path contents : string) : M Relation :=
  let path := os_path_join archive_path (identifier target +:+ ".sql") in
  let! wrote := make_file path contents in
  let msg_prefix :=
    if wrote : bool
    then "Migrated archive " +:+ relation_str target +:+ " -> file at "
    else "Could not write archive " +:+ relation_str target +:+ " to file " in
  let! _ := logger_info (msg_prefix +:+ path) in
  ret target.

Definition perform_table_migration (adapter : Adapter) (target : Relation)
  : M Relation :=
  let! _ :=
    if negb (String.eqb (adapter_type adapter) "bigquery")
    then add_begin_query adapter else ret tt in
  let! backup := backup_relation adapter target in
  let! _ := migrate_archive_table adapter target in
  let! _ :=
    if negb (String.eqb (adapter_type adapter) "bigquery")
    then add_commit_query adapter else ret tt in
  ret backup.

(** The parsed command line, as far as [main] reads it. *)
Record Args := {
  debug : bool;
  write_files : bool;
  migrate_database : bool
}.

(** argparse takes a token for a long option when the option's name
    starts with the token and no other option's name does.  Among the
    options of [parse_args] ([--profile], [--target], [--profiles-dir],
    [--debug], [--no-files], [--no-database-operations], [--help]) that
    is so from [min] characters on. *)
Definition abbreviates (min : nat) (option token : string) : bool :=
  Nat.leb min (String.length token) && String.prefix token option.

(** The three switches of [parse_args], for a command line that argparse
    accepts (on any other it prints the usage and exits, and [main] does
    not run): [--debug] is [store_true], [--no-files] and
    [--no-database-operations] are [store_false] into [write_files] and
    [migrate_database].  A token that looks like an option is never taken
    as the value of [--profile], [--target] or [--profiles-dir], so on an
    accepted command line a switch is set exactly when one of the tokens
    is the switch or an unambiguous abbreviation of it. *)
Definition parse_args (argv : list string) : Args :=
  {| debug := existsb (abbreviates 3 "--debug") argv;
     write_files := negb (existsb (abbreviates 6 "--no-files") argv);
     migrate_database :=
       negb (existsb (abbreviates 6 "--no-database-operations") argv) |}.

(** The body of the [for target, contents in ...] loop of [main], with the
    two lists it appends to. *)
Definition migrate_one (parsed : Args) (adapter : Adapter)
    (archive_path : string) (target : Relation) (contents : string)
    (lists : list Relation * list Relation)
  : M (list Relation * list Relation) :=
  let '(backups_made, archives_written) := lists in
  let! backups_made :=
    if migrate_database parsed
    then
      let! _ := logger_info ("migrating database for " +:+ relation_str target) in
      let! backup := perform_table_migration adapter target in
      ret (backups_made ++ [backup])
    else
      let! _ :=
        logger_info ("not migrating database for " +:+ relation_str target) in
      ret backups_made in
  let! archives_written :=
    if write_files parsed
    then
      let! _ := logger_info ("writing new sql file for " +:+ relation_str target) in
      let! _ :=
        logger_info
          "Do not forget to remove or comment out the existing entry!" in
      let! path := write_migration_file target archive_path contents in
      ret (archives_written ++ [path])
    else
      let! _ :=
        logger_info ("not writing new sql file for " +:+ relation_str target) in
      ret archives_written in
  ret (backups_made, archives_written).

(** The loop over what [collect_migration_targets] yields; the exception
    that ends the generator surfaces when the loop asks for the next item. *)
Fixpoint migration_loop (parsed : Args) (adapter : Adapter)
    (archive_path : string) (targets : list (Relation * string))
    (ending : option exn) (lists : list Relation * list Relation)
  : M (list Relation * list Relation) :=
  match targets with
  | [] =>
      match ending with
      | Some e => raise e
      | None => ret lists
      end
  | (target, contents) :: rest =>
      let! lists' := migrate_one parsed adapter archive_path target contents lists in
      migration_loop parsed adapter archive_path rest ending lists'
  end.

(** [with adapter.connection_named(name): body]: the connection is
    released however the body ends. *)
Definition connection_named {A} (name : string) (body : M A) : M A :=
  fun w =>
    let '(r, w') := body (emit (ConnectionAcquire name) w) in
    (r, emit (ConnectionRelease name) w').

Definition summary (heading : string) (relations : list Relation) : M unit :=
  match relations with
  | [] => ret tt
  | _ =>
      logger_info
        (heading +:+ newline +:+ tab
           +:+ str_join (newline +:+ tab) (map relation_str relations))
  end.

(** [main], from the configuration and the adapter that
    [RuntimeConfig.from_args] and [get_adapter] provide.  It returns the
    final [backups_made] and [archives_written], which the script only
    logs. *)
Definition main (parsed : Args) (cfg : Config) (adapter : Adapter)
  : M (list Relation * list Relation) :=
  let! archive_path :=
    match archive_paths cfg with
    | first :: _ => ret (normpath first)
    | [] => raise IndexError
    end in
  let! _ := make_directory archive_path in
  let '(targets, ending) := collect_migration_targets adapter cfg in
  let! lists :=
    connection_named "migration"
      (migration_loop parsed adapter archive_path targets ending ([], [])) in
  let! _ := logger_info "Migration complete!" in
  let! _ := summary "Backup archives you may wish to drop:" (fst lists) in
  let! _ :=
    summary
      ("Archive files written for the following tables, you should "
         +:+ "remove them from dbt_project.yml:")
      (snd lists) in
  ret lists.

End Script.

(* ================================================================== *)
(** ** Concrete adapters, tables and configurations *)

Module Fixtures.

Definition backtick (s : string) : string := "`" +:+ s +:+ "`".

Definition accepting : list Event -> Event -> option exn := fun _ _ => None.

(** A session that refuses a statement it has already been asked to
    execute, as a database refuses to create a table that exists. *)
Definition refuses_repeats (history : list Event) (e : Event) : option exn :=
  match e with
  | Execute sql =>
      if existsb (fun past =>
                    match past with
                    | Execute sql' => String.eqb sql' sql
                    | _ => false
                    end) history
      then Some (Raise "DatabaseError" "relation already exists")
      else None
  | _ => None
  end.

Definition adapter_of (type : string)
    (answers : list Event -> Event -> option exn) : Adapter :=
  {| adapter_type := type;
     quote := backtick;
     quote_as_configured := fun name _ => name;
     relation_quote_character := "`";
     rejects := answers |}.

Definition no_quoting : QuotePolicy :=
  {| quote_database := false; quote_schema := false;
     quote_identifier := false |}.

Definition users : Relation :=
  Relation_create "`" "analytics" "snapshots" "users" no_quoting.

Definition users_elsewhere : Relation :=
  Relation_create "`" "warehouse" "legacy" "users" no_quoting.

Definition users_table : gmap string string :=
  <["source_table" := "users"]>
    (<["target_table" := "users_archive"]>
       (<["unique_key" := "id"]>
          (<["updated_at" := "ts"]> ∅))).

Definition group_without_database : ArchiveGroup :=
  {| entries := <["target_schema" := "snapshots"]>
                  (<["source_schema" := "public"]> ∅);
     tables := Some [users_table] |}.

Definition group_without_target_schema : ArchiveGroup :=
  {| entries := <["source_schema" := "public"]> ∅;
     tables := Some [users_table] |}.

Definition project (groups : list ArchiveGroup) : Config :=
  {| credentials_database := "analytics";
     archive := groups;
     quoting := no_quoting;
     archive_paths := ["archives"] |}.

Definition single_quotes (s : string) : string := "'" +:+ s +:+ "'".

End Fixtures.

(* ================================================================== *)
(** ** The vocabulary of the statements *)

(** The world after more events, files and global as they were. *)
Definition extend (w : World) (events : list Event) : World :=
  {| trace := trace w ++ events; files := files w;
     module_RENAME_COLUMNS := module_RENAME_COLUMNS w |}.

(** The events a computation added, from the world before and after. *)
Definition events_since (w w' : World) : list Event :=
  drop (length (trace w)) (trace w').

(** The relation, the statement and the log line of the backup of [t],
    as [backup_relation] builds them. *)
Definition backup_target (t : Relation) : Relation :=
  incorporate t (identifier t +:+ "_dbt_archive_migration_backup")
                (identifier t +:+ "_dbt_archive_migration_backup").

Definition backup_sql (t : Relation) : string :=
  "create table " +:+ relation_str (backup_target t)
    +:+ " as (select * from " +:+ relation_str t +:+ ")".

Definition backup_log (t : Relation) : string :=
  "backed up " +:+ relation_str t +:+ " to " +:+ relation_str (backup_target t).

(** A session that raises nothing, whatever it is asked. *)
Definition accepts_all (a : Adapter) : Prop :=
  forall history e, rejects a history e = None.

(** The explicit transaction boundaries. *)
Definition is_boundary (e : Event) : bool :=
  match e with
  | BeginQuery | CommitQuery => true
  | _ => false
  end.

(** A request to the database session, as opposed to logging and files. *)
Definition is_session_request (e : Event) : bool :=
  match e with
  | Execute _ | CreateTable _ _ _ _ | BeginQuery | CommitQuery => true
  | _ => false
  end.

(** The statement and the log line of each pair, in the order of the pairs. *)
Definition rename_events (a : Adapter) (t : Relation)
    (pairs : list (string * string)) : list Event :=
  flat_map (fun rn => [Execute (rename_sql a t rn); LogInfo (rename_log a rn)])
           pairs.

(** The pairs of the module's tuple. *)
Definition three_pairs : list (string * string) :=
  [ ("valid_from", "dbt_valid_from");
    ("valid_to", "dbt_valid_to");
    ("scd_id", "dbt_scd_id") ].

(** The pairs [migrate_archive_alter_table] iterates for a backend. *)
Definition alter_pairs (type : string) : list (string * string) :=
  three_pairs
    ++ (if String.eqb type "snowflake"
        then [("dbt_updated_at", "dbt_updated_at")] else []).

(** Any number of migrations, one after the other, for any backends. *)
Fixpoint invocations (calls : list (Adapter * Relation)) (w : World) : World :=
  match calls with
  | [] => w
  | (a, t) :: rest => invocations rest (snd (migrate_archive_table a t w))
  end.

(** Where the definition of a target goes. *)
Definition definition_path (archive_path : string) (target : Relation) : string :=
  os_path_join archive_path (identifier target +:+ ".sql").

(** A call of the file-writing collaborator that wrote the file. *)
Definition is_file_written (e : Event) : bool :=
  match e with
  | MakeFile _ _ true => true
  | _ => false
  end.

(** A call of the file-writing collaborator. *)
Definition is_make_file (e : Event) : bool :=
  match e with
  | MakeFile _ _ _ => true
  | _ => false
  end.

(** The projection [migrate_archive_bigquery] builds from the three pairs. *)
Definition projection_sql (a : Adapter) (t : Relation) : string :=
  "select * EXCEPT("
    +:+ str_join ", " (map (fun p => quote a (fst p)) three_pairs)
    +:+ "), "
    +:+ str_join ", "
          (map (fun p => quote a (fst p) +:+ " as " +:+ snd p) three_pairs)
    +:+ " from " +:+ relation_str t.

(** What each step of a table's migration asks when nothing is refused. *)
Definition backup_events (t : Relation) : list Event :=
  [Execute (backup_sql t); LogInfo (backup_log t)].

Definition strategy_events (a : Adapter) (t : Relation) : list Event :=
  if String.eqb (adapter_type a) "bigquery"
  then [CreateTable (database t) (schema t) (identifier t) (projection_sql a t)]
  else rename_events a t (alter_pairs (adapter_type a)).

Definition migrate_events (a : Adapter) (t : Relation) : list Event :=
  [Print ("starting migration of " +:+ relation_str t)]
    ++ strategy_events a t
    ++ [Print ("finished migration of " +:+ relation_str t)].

(** A backend with explicit transaction boundaries: any but bigquery. *)
Definition has_boundaries (a : Adapter) : bool :=
  negb (String.eqb (adapter_type a) "bigquery").



(** The result is an exception. *)
Definition failed {A} (r : result A) : Prop := exists e, r = Err e.



(** Log lines and progress lines. *)
Definition is_log (e : Event) : bool :=
  match e with
  | LogInfo _ | Print _ => true
  | _ => false
  end.

(** Taking and giving back the named connection. *)
Definition is_connection (e : Event) : bool :=
  match e with
  | ConnectionAcquire _ | ConnectionRelease _ => true
  | _ => false
  end.

(** Every event of the first kind is of the second kind. *)
Definition includes (K K' : Event -> bool) : Prop :=
  forall e, K e = true -> K' e = true.

(** From [w] to [w'] the run asked only for events of kind [K]; no file
    was changed or removed; and without a call of the file-writing
    collaborator the files are the same. *)
Definition steps (K : Event -> bool) (w w' : World) : Prop :=
  exists events,
    trace w' = trace w ++ events
    /\ forallb K events = true
    /\ files w ⊆ files w'
    /\ (List.filter is_make_file events = [] -> files w' = files w).

(** A computation all of whose runs are such steps. *)
Definition uses (K : Event -> bool) {A} (c : M A) : Prop :=
  forall w, steps K w (snd (c w)).

(** The kinds of events a run of [main] with the given switches may ask
    for: the session only if the database is migrated, the file writer
    only if files are written. *)
Definition run_kinds (parsed : Args) (e : Event) : bool :=
  match e with
  | Execute _ | CreateTable _ _ _ _ | BeginQuery | CommitQuery =>
      migrate_database parsed
  | MakeFile _ _ _ => write_files parsed
  | _ => true
  end.

(** The kinds of events the migration of the tables may ask for: as
    [run_kinds], without the connection and the directory. *)
Definition table_kinds (parsed : Args) (e : Event) : bool :=
  match e with
  | Execute _ | CreateTable _ _ _ _ | BeginQuery | CommitQuery =>
      migrate_database parsed
  | MakeFile _ _ _ => write_files parsed
  | LogInfo _ | Print _ => true
  | _ => false
  end.

(** A computation that leaves the files exactly as [fs]. *)
Definition keeps_files (fs : gmap string string) {A} (c : M A) : Prop :=
  forall w, files w = fs -> files (snd (c w)) = fs.

(* ================================================================== *)
(** ** Strings *)

Lemma length_append (s1 s2 : string) :
  String.length (s1 +:+ s2) = String.length s1 + String.length s2.
Proof.
  induction s1 as [|c s1 IH]; simpl; [reflexivity | now rewrite IH].
Qed.

(** Appending the same suffix to two strings keeps them apart. *)
Lemma append_inj_suffix (x s1 s2 : string) :
  s1 +:+ x = s2 +:+ x -> s1 = s2.
Proof.
  revert s2; induction s1 as [|c s1 IH]; intros [|d s2] H.
  - reflexivity.
  - apply (f_equal String.length) in H.
    rewrite (length_append "" x), (length_append (String d s2) x) in H.
    simpl in H; lia.
  - apply (f_equal String.length) in H.
    rewrite (length_append "" x), (length_append (String c s1) x) in H.
    simpl in H; lia.
  - change (String c (s1 +:+ x) = String d (s2 +:+ x)) in H.
    injection H as -> H; f_equal; now apply IH.
Qed.

(* ================================================================== *)
(** ** Worlds that differ by what was asked since *)

Lemma emit_extend e w : emit e w = extend w [e].
Proof. reflexivity. Qed.

Lemma extend_extend w l1 l2 : extend (extend w l1) l2 = extend w (l1 ++ l2).
Proof. unfold extend; simpl; now rewrite <- app_assoc. Qed.

Lemma extend_nil w : extend w [] = w.
Proof. destruct w; unfold extend; simpl; now rewrite app_nil_r. Qed.

Lemma events_since_extend w l : events_since w (extend w l) = l.
Proof. unfold events_since; simpl. now rewrite drop_app_length. Qed.

(* ================================================================== *)
(** ** The backup *)

(** What [backup_relation] does, for any session: it asks for the
    [create table] at once, and fails exactly when the session refuses. *)
Lemma backup_relation_run a t w :
  backup_relation a t w =
    match rejects a (trace w) (Execute (backup_sql t)) with
    | Some x => (Err x, extend w [Execute (backup_sql t)])
    | None =>
        (Ok (backup_target t),
         extend w [Execute (backup_sql t); LogInfo (backup_log t)])
    end.
Proof.
  unfold backup_relation, bind, execute, session, logger_info, ret.
  fold (backup_target t). fold (backup_sql t). fold (backup_log t).
  destruct (rejects a (trace w) (Execute (backup_sql t))).
  - reflexivity.
  - now rewrite !emit_extend, extend_extend.
Qed.

(** C1 as the spec words it fails: on a second call in succession, with
    a session that refuses the repeated statement, the [create table] has
    been asked of the session when the call fails, and the exception is
    the session's, not a [BackupConflictError]. *)
Lemma second_backup_call_asks_create_table :
  let a := Fixtures.adapter_of "postgres" Fixtures.refuses_repeats in
  let w1 := snd (backup_relation a Fixtures.users (initial_world ∅)) in
  exists e,
    fst (backup_relation a Fixtures.users w1) = Err e
    /\ exn_class e <> "BackupConflictError"
    /\ events_since w1 (snd (backup_relation a Fixtures.users w1))
       = [Execute (backup_sql Fixtures.users)].
Proof.
  eexists; split; [reflexivity|]. split; [discriminate | reflexivity].
Qed.

(** C1 (amended): [backup_relation] makes no check of its own.  On a
    second call in succession for the same source table, the first call
    having asked for the [create table] of the backup, it asks the session
    for the same statement again; when the session refuses it the call
    fails with the session's exception and has done nothing else (nothing
    logged, nothing returned, no file or global touched), and when the
    session accepts it the call logs and returns the backup as before. *)
Theorem backup_relation_leaves_conflict_to_session a t w :
  let w1 := snd (backup_relation a t w) in
  let second := backup_relation a t w1 in
  In (Execute (backup_sql t)) (trace w1)
  /\ second
     = match rejects a (trace w1) (Execute (backup_sql t)) with
       | Some x => (Err x, extend w1 [Execute (backup_sql t)])
       | None =>
           (Ok (backup_target t),
            extend w1 [Execute (backup_sql t); LogInfo (backup_log t)])
       end
  /\ (exists rest,
         events_since w1 (snd second) = Execute (backup_sql t) :: rest)
  /\ files (snd second) = files w
  /\ module_RENAME_COLUMNS (snd second) = module_RENAME_COLUMNS w.
Proof.
  intros w1 second; subst second.
  assert (exists first, w1 = extend w (Execute (backup_sql t) :: first))
    as [first Hw1].
  { subst w1; rewrite backup_relation_run.
    destruct (rejects a (trace w) _); eexists; reflexivity. }
  rewrite backup_relation_run.
  split; [|split; [reflexivity|]].
  - rewrite Hw1; cbn [trace extend].
    apply in_or_app; right; now left.
  - destruct (rejects a (trace w1) _); cbn [snd];
      rewrite events_since_extend, Hw1;
      (split; [eexists; reflexivity | split; reflexivity]).
Qed.

(** With a session that accepts every statement, the second backup of the
    same table goes through like the first. *)
Example backup_relation_twice_accepted :
  let a := Fixtures.adapter_of "postgres" Fixtures.accepting in
  let w1 := snd (backup_relation a Fixtures.users (initial_world ∅)) in
  fst (backup_relation a Fixtures.users w1) = Ok (backup_target Fixtures.users)
  /\ trace (snd (backup_relation a Fixtures.users w1)) =
       [ Execute (backup_sql Fixtures.users);
         LogInfo (backup_log Fixtures.users);
         Execute (backup_sql Fixtures.users);
         LogInfo (backup_log Fixtures.users) ].
Proof. split; reflexivity. Qed.

(** With a session that refuses a repeated statement, the second call
    fails with the session's exception, after the statement was asked. *)
Example backup_relation_twice_refused :
  let a := Fixtures.adapter_of "postgres" Fixtures.refuses_repeats in
  let w1 := snd (backup_relation a Fixtures.users (initial_world ∅)) in
  fst (backup_relation a Fixtures.users w1) =
    Err (Raise "DatabaseError" "relation already exists")
  /\ trace (snd (backup_relation a Fixtures.users w1)) =
       [ Execute (backup_sql Fixtures.users);
         LogInfo (backup_log Fixtures.users);
         Execute (backup_sql Fixtures.users) ].
Proof. split; reflexivity. Qed.

(** C3 as the spec words it fails: the name of the backup of [users] is
    not [users_migration_backup]. *)
Lemma backup_name_is_not_migration_backup :
  exists b,
    fst (backup_relation (Fixtures.adapter_of "postgres" Fixtures.accepting)
           Fixtures.users (initial_world ∅)) = Ok b
    /\ identifier b <> identifier Fixtures.users +:+ "_migration_backup".
Proof. eexists; split; [reflexivity | discriminate]. Qed.

(** C3 (amended): the backup that [backup_relation] returns is named by
    the source identifier followed by [_dbt_archive_migration_backup], in
    its identifier and its table name, at the source's database and
    schema; two sources with distinct identifiers get distinct backup
    names. *)
Theorem backup_name_deterministic a t1 t2 w1 w2 b1 b2 :
  fst (backup_relation a t1 w1) = Ok b1 ->
  fst (backup_relation a t2 w2) = Ok b2 ->
  identifier t1 <> identifier t2 ->
  identifier b1 = identifier t1 +:+ "_dbt_archive_migration_backup"
  /\ table_name b1 = identifier t1 +:+ "_dbt_archive_migration_backup"
  /\ database b1 = database t1
  /\ schema b1 = schema t1
  /\ identifier b1 <> identifier b2.
Proof.
  rewrite !backup_relation_run.
  destruct (rejects a (trace w1) _); [discriminate|].
  destruct (rejects a (trace w2) _); [discriminate|].
  simpl; intros [= <-] [= <-] Hne; repeat split.
  simpl; intros H; apply Hne. now apply append_inj_suffix in H.
Qed.

Lemma backup_name_deterministic_witness :
  identifier (backup_target Fixtures.users) = "users_dbt_archive_migration_backup"
  /\ identifier (backup_target Fixtures.users)
     <> identifier (backup_target
                      (Relation_create "`" "analytics" "snapshots" "orders"
                         Fixtures.no_quoting)).
Proof.
  pose proof
    (backup_name_deterministic
       (Fixtures.adapter_of "postgres" Fixtures.accepting)
       Fixtures.users
       (Relation_create "`" "analytics" "snapshots" "orders"
          Fixtures.no_quoting)
       (initial_world ∅) (initial_world ∅)
       (backup_target Fixtures.users)
       (backup_target
          (Relation_create "`" "analytics" "snapshots" "orders"
             Fixtures.no_quoting))
       eq_refl eq_refl) as H.
  destruct H as (H1 & _ & _ & _ & H5); [discriminate|].
  split; [exact H1 | exact H5].
Defined.

(* ================================================================== *)
(** ** The rename strategies *)

Lemma session_run a e w :
  session a e w =
    match rejects a (trace w) e with
    | Some x => (Err x, extend w [e])
    | None => (Ok tt, extend w [e])
    end.
Proof. reflexivity. Qed.

Lemma rename_loop_accepted a t pairs w :
  accepts_all a ->
  rename_loop a t pairs w = (Ok tt, extend w (rename_events a t pairs)).
Proof.
  intros Hacc; revert w; induction pairs as [|rn rest IH]; intros w; simpl.
  - unfold ret; now rewrite extend_nil.
  - unfold bind, execute, logger_info.
    rewrite session_run, Hacc, emit_extend, IH, !extend_extend.
    reflexivity.
Qed.

(** Whatever the session answers, the loop only adds events, none of them
    a transaction boundary. *)
Lemma rename_loop_extends a t pairs w :
  exists events,
    snd (rename_loop a t pairs w) = extend w events
    /\ List.filter is_boundary events = [].
Proof.
  revert w; induction pairs as [|rn rest IH]; intros w; simpl.
  - exists []; split; [now rewrite extend_nil | reflexivity].
  - unfold bind, execute, logger_info.
    rewrite session_run.
    destruct (rejects a (trace w) _).
    + eexists; split; reflexivity.
    + rewrite emit_extend, extend_extend.
      destruct (IH (extend w ([Execute (rename_sql a t rn)]
                                ++ [LogInfo (rename_log a rn)])))
        as (events & -> & Hb).
      rewrite extend_extend.
      eexists; split; [reflexivity | exact Hb].
Qed.

Lemma set_RENAME_COLUMNS_same w :
  set_RENAME_COLUMNS (module_RENAME_COLUMNS w) w = w.
Proof. now destruct w. Qed.

(** With the module's tuple in place, [migrate_archive_alter_table] is the
    loop over the pairs of the backend, and the tuple stays. *)
Lemma migrate_archive_alter_table_tuple a t w l :
  module_RENAME_COLUMNS w = PyTuple l ->
  migrate_archive_alter_table a t w =
    rename_loop a t
      (l ++ (if String.eqb (adapter_type a) "snowflake"
             then [("dbt_updated_at", "dbt_updated_at")] else []))
      w.
Proof.
  intros H; unfold migrate_archive_alter_table; rewrite H.
  destruct (String.eqb (adapter_type a) "snowflake"); simpl.
  - now rewrite <- H, set_RENAME_COLUMNS_same.
  - now rewrite app_nil_r.
Qed.

Lemma migrate_archive_alter_table_extends a t w l :
  module_RENAME_COLUMNS w = PyTuple l ->
  exists events,
    snd (migrate_archive_alter_table a t w) = extend w events
    /\ List.filter is_boundary events = [].
Proof.
  intros H; rewrite (migrate_archive_alter_table_tuple a t w l H).
  apply rename_loop_extends.
Qed.

Lemma migrate_archive_bigquery_extends a t w :
  exists events,
    snd (migrate_archive_bigquery a t w) = extend w events
    /\ List.filter is_boundary events = [].
Proof.
  unfold migrate_archive_bigquery, create_table; rewrite session_run.
  destruct (rejects a (trace w) _); eexists; split; reflexivity.
Qed.

Lemma migrate_archive_table_extends a t w l :
  module_RENAME_COLUMNS w = PyTuple l ->
  exists events,
    snd (migrate_archive_table a t w) = extend w events
    /\ List.filter is_boundary events = [].
Proof.
  intros H; unfold migrate_archive_table, bind, print, ret.
  rewrite emit_extend.
  set (w1 := extend w _).
  assert (exists events r,
             (if String.eqb (adapter_type a) "bigquery"
              then migrate_archive_bigquery a t
              else migrate_archive_alter_table a t) w1 = (r, extend w1 events)
             /\ List.filter is_boundary events = []) as (events & r & -> & Hb).
  { destruct (String.eqb (adapter_type a) "bigquery").
    - destruct (migrate_archive_bigquery_extends a t w1) as (ev & E & Hb).
      destruct (migrate_archive_bigquery a t w1) as [r w2]; simpl in E.
      subst w2; now exists ev, r.
    - destruct (migrate_archive_alter_table_extends a t w1 l H) as (ev & E & Hb).
      destruct (migrate_archive_alter_table a t w1) as [r w2]; simpl in E.
      subst w2; now exists ev, r. }
  subst w1; destruct r as [[]|e]; simpl.
  - rewrite emit_extend, !extend_extend.
    eexists; split; [reflexivity|].
    rewrite !List.filter_app, Hb; reflexivity.
  - rewrite extend_extend.
    eexists; split; [reflexivity|]. simpl; exact Hb.
Qed.

Lemma rename_events_requests a t pairs :
  List.filter is_session_request (rename_events a t pairs)
  = map (fun rn => Execute (rename_sql a t rn)) pairs.
Proof.
  induction pairs as [|rn rest IH]; simpl; [reflexivity | now rewrite IH].
Qed.

(** C4: with a session that accepts its statements, AlterRename asks for
    exactly one rename statement per pair, in the order of the list
    [valid_from], [valid_to], [scd_id]; for the backend [snowflake], and
    for no other, the pair [dbt_updated_at -> dbt_updated_at] is appended
    and its statement comes last. *)
Theorem alter_rename_statements a t w :
  accepts_all a ->
  module_RENAME_COLUMNS w = RENAME_COLUMNS ->
  migrate_archive_alter_table a t w
  = (Ok tt, extend w (rename_events a t (alter_pairs (adapter_type a))))
  /\ List.filter is_session_request
       (rename_events a t (alter_pairs (adapter_type a)))
     = map (fun rn => Execute (rename_sql a t rn))
           (alter_pairs (adapter_type a))
  /\ alter_pairs (adapter_type a)
     = [ ("valid_from", "dbt_valid_from");
         ("valid_to", "dbt_valid_to");
         ("scd_id", "dbt_scd_id") ]
         ++ (if decide (adapter_type a = "snowflake")
             then [("dbt_updated_at", "dbt_updated_at")] else []).
Proof.
  intros Hacc Hglobal; repeat split.
  - rewrite (migrate_archive_alter_table_tuple a t w three_pairs Hglobal).
    now apply rename_loop_accepted.
  - apply rename_events_requests.
  - unfold alter_pairs, three_pairs.
    destruct (String.eqb_spec (adapter_type a) "snowflake") as [E|E];
      destruct (decide (adapter_type a = "snowflake")); congruence.
Qed.

Lemma alter_rename_statements_witness :
  trace (snd (migrate_archive_alter_table
                (Fixtures.adapter_of "snowflake" Fixtures.accepting)
                Fixtures.users (initial_world ∅)))
  = [ Execute "alter table analytics.snapshots.users rename column `valid_from` to dbt_valid_from";
      LogInfo "renamed `valid_from` -> dbt_valid_from";
      Execute "alter table analytics.snapshots.users rename column `valid_to` to dbt_valid_to";
      LogInfo "renamed `valid_to` -> dbt_valid_to";
      Execute "alter table analytics.snapshots.users rename column `scd_id` to dbt_scd_id";
      LogInfo "renamed `scd_id` -> dbt_scd_id";
      Execute "alter table analytics.snapshots.users rename column `dbt_updated_at` to dbt_updated_at";
      LogInfo "renamed `dbt_updated_at` -> dbt_updated_at" ].
Proof.
  destruct (alter_rename_statements
              (Fixtures.adapter_of "snowflake" Fixtures.accepting)
              Fixtures.users (initial_world ∅)
              (fun _ _ => eq_refl) eq_refl) as (H & _ & _).
  rewrite H; reflexivity.
Defined.

(** An exception out of the rename loop is one the session raised for one
    of its statements. *)
Lemma rename_loop_error a t pairs w e :
  fst (rename_loop a t pairs w) = Err e ->
  exists history rn,
    In rn pairs /\ rejects a history (Execute (rename_sql a t rn)) = Some e.
Proof.
  revert w; induction pairs as [|rn rest IH]; intros w; simpl.
  - discriminate.
  - unfold bind, execute, logger_info; rewrite session_run.
    destruct (rejects a (trace w) _) as [x|] eqn:E.
    + intros [= <-]; exists (trace w), rn; auto.
    + intros H; apply IH in H as (h & rn' & Hin & Hr).
      exists h, rn'; auto.
Qed.

(** C2 as the spec words it fails: a backend the script knows nothing
    about is not refused; it gets the alter-rename statements. *)
Lemma unknown_backend_is_not_refused :
  let oracle := Fixtures.adapter_of "oracle" Fixtures.accepting in
  ~ In (adapter_type oracle) ["bigquery"; "snowflake"; "postgres"; "redshift"]
  /\ fst (migrate_archive_table oracle Fixtures.users (initial_world ∅)) = Ok tt
  /\ List.filter is_session_request
       (trace (snd (migrate_archive_table oracle Fixtures.users
                      (initial_world ∅))))
     = map (fun rn => Execute (rename_sql oracle Fixtures.users rn))
           three_pairs.
Proof.
  simpl; repeat split; try reflexivity.
  intros H; repeat (destruct H as [H|H]; [discriminate|]); exact H.
Qed.

(** C2 (amended): selection never fails.  Every backend identifier other
    than [bigquery], known or not, gets the alter-rename strategy, run
    between the two progress lines; an exception can only be one the
    session raised for a rename statement. *)
Theorem backend_other_than_bigquery_gets_alter_rename a t w :
  adapter_type a <> "bigquery" ->
  module_RENAME_COLUMNS w = RENAME_COLUMNS ->
  (accepts_all a ->
   migrate_archive_table a t w
   = (Ok tt,
      extend w
        ([Print ("starting migration of " +:+ relation_str t)]
           ++ rename_events a t (alter_pairs (adapter_type a))
           ++ [Print ("finished migration of " +:+ relation_str t)])))
  /\ (forall e,
        fst (migrate_archive_table a t w) = Err e ->
        exists history rn,
          In rn (alter_pairs (adapter_type a))
          /\ rejects a history (Execute (rename_sql a t rn)) = Some e).
Proof.
  intros Hne Hglobal.
  apply String.eqb_neq in Hne.
  unfold migrate_archive_table, bind, print, ret; rewrite Hne, emit_extend.
  rewrite (migrate_archive_alter_table_tuple a t
             (extend w [Print ("starting migration of " +:+ relation_str t)])
             three_pairs Hglobal).
  fold (alter_pairs (adapter_type a)).
  split.
  - intros Hacc; rewrite (rename_loop_accepted a t _ _ Hacc).
    now rewrite emit_extend, !extend_extend.
  - intros e.
    destruct (rename_loop a t (alter_pairs (adapter_type a)) _)
      as [[[]|e'] w'] eqn:E; cbn [fst]; [discriminate|].
    intros [= <-].
    apply (rename_loop_error a t _ (extend w [Print ("starting migration of " +:+ relation_str t)])).
    now rewrite E.
Qed.

Lemma backend_other_than_bigquery_gets_alter_rename_witness :
  migrate_archive_table (Fixtures.adapter_of "oracle" Fixtures.accepting)
    Fixtures.users (initial_world ∅)
  = (Ok tt,
     extend (initial_world ∅)
       ([Print "starting migration of analytics.snapshots.users"]
          ++ rename_events (Fixtures.adapter_of "oracle" Fixtures.accepting)
               Fixtures.users three_pairs
          ++ [Print "finished migration of analytics.snapshots.users"])).
Proof.
  destruct (backend_other_than_bigquery_gets_alter_rename
              (Fixtures.adapter_of "oracle" Fixtures.accepting)
              Fixtures.users (initial_world ∅)) as [H _].
  - discriminate.
  - reflexivity.
  - exact (H (fun _ _ => eq_refl)).
Defined.

(* ================================================================== *)
(** ** The shared rename mapping *)

Lemma migrate_archive_table_keeps_tuple a t w l :
  module_RENAME_COLUMNS w = PyTuple l ->
  module_RENAME_COLUMNS (snd (migrate_archive_table a t w)) = PyTuple l.
Proof.
  intros H.
  destruct (migrate_archive_table_extends a t w l H) as (events & -> & _).
  exact H.
Qed.

Lemma invocations_keep_tuple calls w l :
  module_RENAME_COLUMNS w = PyTuple l ->
  module_RENAME_COLUMNS (invocations calls w) = PyTuple l.
Proof.
  revert w; induction calls as [|[a t] rest IH]; intros w H; simpl.
  - exact H.
  - apply IH. now apply migrate_archive_table_keeps_tuple.
Qed.

(** C9: the module's three-pair tuple is never changed.  After any run of
    migrations for any backends, either strategy, for any backend and
    whatever the session answers, finds the original three pairs in
    [RENAME_COLUMNS] and leaves them there: the pair added for snowflake
    goes to the local name only. *)
Theorem rename_columns_never_mutated calls a t w :
  module_RENAME_COLUMNS w = RENAME_COLUMNS ->
  let w' := invocations calls w in
  module_RENAME_COLUMNS w' = RENAME_COLUMNS
  /\ py_items (module_RENAME_COLUMNS w')
     = [ ("valid_from", "dbt_valid_from");
         ("valid_to", "dbt_valid_to");
         ("scd_id", "dbt_scd_id") ]
  /\ module_RENAME_COLUMNS (snd (migrate_archive_alter_table a t w'))
     = RENAME_COLUMNS
  /\ module_RENAME_COLUMNS (snd (migrate_archive_bigquery a t w'))
     = RENAME_COLUMNS.
Proof.
  intros H w'.
  assert (module_RENAME_COLUMNS w' = RENAME_COLUMNS) as H'
    by (apply invocations_keep_tuple; exact H).
  repeat split.
  - exact H'.
  - now rewrite H'.
  - destruct (migrate_archive_alter_table_extends a t w' three_pairs H')
      as (events & -> & _); exact H'.
  - destruct (migrate_archive_bigquery_extends a t w')
      as (events & -> & _); exact H'.
Qed.

Lemma rename_columns_never_mutated_witness :
  let snowflake := Fixtures.adapter_of "snowflake" Fixtures.accepting in
  let postgres := Fixtures.adapter_of "postgres" Fixtures.refuses_repeats in
  module_RENAME_COLUMNS
    (snd (migrate_archive_alter_table postgres Fixtures.users
            (invocations [(snowflake, Fixtures.users);
                          (snowflake, Fixtures.users_elsewhere)]
               (initial_world ∅))))
  = RENAME_COLUMNS.
Proof.
  intros snowflake postgres.
  exact (proj1 (proj2 (proj2
           (rename_columns_never_mutated
              [(snowflake, Fixtures.users);
               (snowflake, Fixtures.users_elsewhere)]
              postgres Fixtures.users (initial_world ∅) eq_refl)))).
Defined.

(** Were [RENAME_COLUMNS] a list, the same [+=] would grow it in place:
    the tuple is what keeps the global intact. *)
Example rename_columns_list_would_grow :
  py_items
    (module_RENAME_COLUMNS
       (snd (migrate_archive_alter_table
               (Fixtures.adapter_of "snowflake" Fixtures.accepting)
               Fixtures.users
               (set_RENAME_COLUMNS (PyList three_pairs) (initial_world ∅)))))
  = three_pairs ++ [("dbt_updated_at", "dbt_updated_at")].
Proof. reflexivity. Qed.

(* ================================================================== *)
(** ** The plan builder *)

(** Groups that come after groups read without an exception are read in
    turn: what they yield follows what the earlier groups yielded. *)
Lemma get_archive_configs_from_app d pre rest specs :
  get_archive_configs_from d pre = (specs, None) ->
  get_archive_configs_from d (pre ++ rest)
  = (specs ++ fst (get_archive_configs_from d rest),
     snd (get_archive_configs_from d rest)).
Proof.
  revert specs; induction pre as [|g pre IH]; intros specs H.
  - injection H as <-. simpl. now destruct (get_archive_configs_from d rest).
  - cbn [get_archive_configs_from app] in *.
    destruct (getitem (entries g) "target_schema"); [|discriminate].
    destruct (getitem (entries g) "source_schema"); [|discriminate].
    destruct (tables g); [|discriminate].
    destruct (get_archive_configs_from d pre) as [more ending] eqn:E.
    injection H as <- ->.
    rewrite (IH more eq_refl).
    now rewrite app_assoc.
Qed.

Lemma table_copies_resolved td ts sd ss tbls :
  Forall (fun spec : gmap string string =>
            spec !! "target_database" = Some td
            /\ spec !! "target_schema" = Some ts
            /\ spec !! "source_database" = Some sd
            /\ spec !! "source_schema" = Some ss)
         (table_copies td ts sd ss tbls).
Proof.
  unfold table_copies; apply Forall_map, Forall_forall; intros table _.
  simpl; repeat split; now simplify_map_eq.
Qed.

(** C5 as the spec words it fails: a group without [target_schema] ends
    the plan with a [KeyError], not a [ConfigurationError]. *)
Lemma missing_target_schema_raises_KeyError :
  get_archive_configs (Fixtures.project [Fixtures.group_without_target_schema])
  = ([], Some (KeyError "target_schema"))
  /\ exn_class (KeyError "target_schema") <> "ConfigurationError".
Proof. split; [reflexivity | discriminate]. Qed.

(** C5 (amended): for a group [g] reached after the groups [pre], every
    spec yielded for [g] has [target_database] and [source_database]
    resolved, to the connection's default where the group has none; a
    group without [target_schema] (or, that present, without
    [source_schema]) ends the plan with a [KeyError] naming the field,
    after the specs of the earlier groups and before any spec of [g]. *)
Theorem plan_builder_resolves_or_raises_KeyError d pre g rest specs :
  get_archive_configs_from d pre = (specs, None) ->
  (entries g !! "target_schema" = None ->
   get_archive_configs_from d (pre ++ g :: rest)
   = (specs, Some (KeyError "target_schema")))
  /\ (forall ts,
        entries g !! "target_schema" = Some ts ->
        entries g !! "source_schema" = None ->
        get_archive_configs_from d (pre ++ g :: rest)
        = (specs, Some (KeyError "source_schema")))
  /\ (forall ts ss tbls,
        entries g !! "target_schema" = Some ts ->
        entries g !! "source_schema" = Some ss ->
        tables g = Some tbls ->
        let td := default d (entries g !! "target_database") in
        let sd := default d (entries g !! "source_database") in
        let mine := table_copies td ts sd ss tbls in
        (exists more ending,
            get_archive_configs_from d (pre ++ g :: rest)
            = (specs ++ mine ++ more, ending))
        /\ length mine = length tbls
        /\ Forall (fun spec : gmap string string =>
                     spec !! "target_database" = Some td
                     /\ spec !! "source_database" = Some sd)
                  mine
        /\ (entries g !! "target_database" = None -> td = d)
        /\ (entries g !! "source_database" = None -> sd = d)).
Proof.
  intros Hpre.
  rewrite (get_archive_configs_from_app d pre (g :: rest) specs Hpre).
  cbn [get_archive_configs_from]; unfold getitem, dict_get.
  split; [|split].
  - intros ->; simpl. now rewrite app_nil_r.
  - intros ts -> ->; simpl. now rewrite app_nil_r.
  - intros ts ss tbls -> -> ->; cbn zeta.
    split; [|split; [|split; [|split]]].
    + destruct (get_archive_configs_from d rest) as [more ending].
      exists more, ending; simpl.
      unfold default.
      destruct (entries g !! "target_database"),
               (entries g !! "source_database"); reflexivity.
    + unfold table_copies; now rewrite length_map.
    + eapply Forall_impl; [apply table_copies_resolved|].
      simpl; tauto.
    + now intros ->.
    + now intros ->.
Qed.

Lemma plan_builder_resolves_or_raises_KeyError_witness :
  get_archive_configs_from "analytics"
    [Fixtures.group_without_database; Fixtures.group_without_target_schema]
  = (table_copies "analytics" "snapshots" "analytics" "public"
       [Fixtures.users_table],
     Some (KeyError "target_schema")).
Proof.
  destruct (plan_builder_resolves_or_raises_KeyError "analytics"
              [Fixtures.group_without_database]
              Fixtures.group_without_target_schema []
              (table_copies "analytics" "snapshots" "analytics" "public"
                 [Fixtures.users_table])
              eq_refl) as [H _].
  exact (H eq_refl).
Defined.

(* ================================================================== *)
(** ** Definition files *)

(** [write_migration_file] in full: it returns the target whether the
    file was written or was there already. *)
Lemma write_migration_file_run target archive_path contents w :
  write_migration_file target archive_path contents w =
    match files w !! definition_path archive_path target with
    | Some _ =>
        (Ok target,
         extend w
           [ MakeFile (definition_path archive_path target) contents false;
             LogInfo (("Could not write archive " +:+ relation_str target
                         +:+ " to file ")
                        +:+ definition_path archive_path target) ])
    | None =>
        (Ok target,
         extend
           (set_files
              (<[definition_path archive_path target := contents]> (files w))
              w)
           [ MakeFile (definition_path archive_path target) contents true;
             LogInfo (("Migrated archive " +:+ relation_str target
                         +:+ " -> file at ")
                        +:+ definition_path archive_path target) ])
    end.
Proof.
  unfold write_migration_file, bind, make_file, logger_info, ret.
  fold (definition_path archive_path target).
  destruct (files w !! definition_path archive_path target);
    now rewrite !emit_extend, extend_extend.
Qed.

(** The loop body with the database left alone and files written, on a
    target whose definition file is there already: nothing is written, and
    the target is appended to [archives_written] all the same. *)
Lemma migrate_one_records_unwritten_file parsed a archive_path target
    contents backups_made archives_written w old :
  migrate_database parsed = false ->
  write_files parsed = true ->
  files w !! definition_path archive_path target = Some old ->
  exists w',
    migrate_one parsed a archive_path target contents
      (backups_made, archives_written) w
    = (Ok (backups_made, archives_written ++ [target]), w')
    /\ files w' = files w
    /\ List.filter is_make_file (events_since w w')
       = [MakeFile (definition_path archive_path target) contents false].
Proof.
  intros Hdb Hfiles Hold.
  unfold migrate_one; rewrite Hdb, Hfiles.
  unfold bind, logger_info, ret; cbv beta iota.
  rewrite write_migration_file_run.
  rewrite !emit_extend, !extend_extend.
  cbn [files extend]; rewrite Hold; cbv beta iota.
  rewrite ?extend_extend.
  eexists; split; [reflexivity|].
  split; [reflexivity|].
  now rewrite events_since_extend.
Qed.

(** C6 (the code departs from the claim): [main] on one table whose
    definition file exists already.  [make_file] answers false and the
    file keeps its old contents, yet the target is in [archives_written]
    and under the heading of the files written in the summary. *)
Theorem archives_written_lists_unwritten_file :
  let before : gmap string string :=
    <["archives/users_archive.sql" := "-- written by hand"]> ∅ in
  let run :=
    main Fixtures.single_quotes id
      (parse_args ["--no-database-operations"])
      (Fixtures.project [Fixtures.group_without_database])
      (Fixtures.adapter_of "postgres" Fixtures.accepting)
      (initial_world before) in
  let target :=
    Relation_create "`" "analytics" "snapshots" "users_archive"
      Fixtures.no_quoting in
  fst run = Ok ([], [target])
  /\ files (snd run) = before
  /\ (exists contents,
        List.filter is_make_file (trace (snd run))
        = [MakeFile "archives/users_archive.sql" contents false])
  /\ last (trace (snd run))
     = Some (LogInfo
               ("Archive files written for the following tables, you should "
                  +:+ "remove them from dbt_project.yml:"
                  +:+ newline +:+ tab +:+ "analytics.snapshots.users_archive")).
Proof.
  repeat split; try reflexivity.
  eexists; reflexivity.
Qed.

(** C10: the path of a definition file is the archive directory joined
    with the target's identifier and [.sql]; database and schema have no
    part in it.  Two specs with the same [target_table] get targets with
    the same path, and writing the second after the first writes nothing:
    [make_file] answers false and the files stay as the first call left
    them. *)
Theorem definition_path_ignores_database_and_schema
    py_repr a cfg spec1 spec2 t1 t2 c1 c2 archive_path w :
  migration_target py_repr a cfg spec1 = Ok (t1, c1) ->
  migration_target py_repr a cfg spec2 = Ok (t2, c2) ->
  spec1 !! "target_table" = spec2 !! "target_table" ->
  let path := os_path_join archive_path (identifier t1 +:+ ".sql") in
  let w1 := snd (write_migration_file t1 archive_path c1 w) in
  let w2 := snd (write_migration_file t2 archive_path c2 w1) in
  spec1 !! "target_table" = Some (identifier t1)
  /\ os_path_join archive_path (identifier t2 +:+ ".sql") = path
  /\ List.filter is_make_file (events_since w1 w2) = [MakeFile path c2 false]
  /\ files w2 = files w1
  /\ files w2 !! path = Some (default c1 (files w !! path)).
Proof.
  intros H1 H2 Hsame.
  assert (forall spec t c,
             migration_target py_repr a cfg spec = Ok (t, c) ->
             spec !! "target_table" = Some (identifier t)) as Hid.
  { intros spec t c; unfold migration_target, result_bind, getitem.
    destruct (spec !! "target_database"); [|discriminate].
    destruct (spec !! "target_schema"); [|discriminate].
    destruct (spec !! "target_table"); [|discriminate].
    destruct (build_archive_data py_repr a spec); [|discriminate].
    now intros [= <- _]. }
  pose proof (Hid _ _ _ H1) as E1. pose proof (Hid _ _ _ H2) as E2.
  assert (identifier t2 = identifier t1) as Eid by congruence.
  intros path w1 w2.
  assert (files w1 !! path = Some (default c1 (files w !! path))) as Hw1.
  { subst w1; rewrite write_migration_file_run.
    fold path; unfold definition_path; fold path.
    destruct (files w !! path) eqn:E; simpl; [exact E|].
    now rewrite lookup_insert_eq. }
  assert (w2 = extend w1
                 [ MakeFile path c2 false;
                   LogInfo (("Could not write archive " +:+ relation_str t2
                               +:+ " to file ") +:+ path) ]) as ->.
  { subst w2; rewrite write_migration_file_run.
    unfold definition_path; rewrite Eid; fold path.
    now rewrite Hw1. }
  repeat split.
  - exact E1.
  - now rewrite Eid.
  - now rewrite events_since_extend.
  - exact Hw1.
Qed.

Lemma definition_path_ignores_database_and_schema_witness :
  let spec1 : gmap string string :=
    <["target_database" := "analytics"]>
      (<["target_schema" := "snapshots"]>
         (<["source_database" := "analytics"]>
            (<["source_schema" := "public"]> Fixtures.users_table))) in
  let spec2 : gmap string string :=
    <["target_database" := "warehouse"]>
      (<["target_schema" := "legacy"]>
         (<["source_database" := "analytics"]>
            (<["source_schema" := "public"]> Fixtures.users_table))) in
  let a := Fixtures.adapter_of "postgres" Fixtures.accepting in
  let cfg := Fixtures.project [] in
  exists t1 c1 t2 c2,
    migration_target Fixtures.single_quotes a cfg spec1 = Ok (t1, c1)
    /\ migration_target Fixtures.single_quotes a cfg spec2 = Ok (t2, c2)
    /\ database t1 <> database t2
    /\ schema t1 <> schema t2
    /\ files (snd (write_migration_file t2 "archives" c2
                     (snd (write_migration_file t1 "archives" c1
                             (initial_world ∅)))))
       !! "archives/users_archive.sql" = Some c1.
Proof.
  intros spec1 spec2 a cfg.
  do 4 eexists.
  split; [reflexivity|]. split; [reflexivity|].
  split; [discriminate|]. split; [discriminate|].
  refine (proj2 (proj2 (proj2 (proj2
            (definition_path_ignores_database_and_schema
               Fixtures.single_quotes a cfg spec1 spec2 _ _ _ _
               "archives" (initial_world ∅) eq_refl eq_refl eq_refl))))).
Defined.

(* ================================================================== *)
(** ** Transaction boundaries *)






Lemma migrate_archive_table_accepted a t w :
  accepts_all a ->
  module_RENAME_COLUMNS w = RENAME_COLUMNS ->
  migrate_archive_table a t w = (Ok tt, extend w (migrate_events a t)).
Proof.
  intros Hacc Hglobal.
  unfold migrate_archive_table, migrate_events, strategy_events,
    bind, print, ret.
  rewrite emit_extend.
  destruct (String.eqb (adapter_type a) "bigquery").
  - unfold migrate_archive_bigquery, create_table.
    rewrite session_run, Hacc.
    cbn [module_RENAME_COLUMNS extend]; rewrite Hglobal.
    now rewrite emit_extend, !extend_extend.
  - rewrite (migrate_archive_alter_table_tuple a t
               (extend w [Print ("starting migration of " +:+ relation_str t)])
               three_pairs Hglobal).
    fold (alter_pairs (adapter_type a)).
    rewrite (rename_loop_accepted a t _ _ Hacc).
    now rewrite emit_extend, !extend_extend.
Qed.

Lemma perform_table_migration_accepted a t w :
  accepts_all a ->
  module_RENAME_COLUMNS w = RENAME_COLUMNS ->
  perform_table_migration a t w
  = (Ok (backup_target t),
     extend w
       ((if has_boundaries a then [BeginQuery] else [])
          ++ backup_events t ++ migrate_events a t
          ++ (if has_boundaries a then [CommitQuery] else []))).
Proof.
  intros Hacc Hglobal.
  unfold perform_table_migration, has_boundaries, bind.
  destruct (negb (String.eqb (adapter_type a) "bigquery")).
  - unfold add_begin_query, add_commit_query.
    rewrite session_run, Hacc, backup_relation_run, Hacc.
    rewrite migrate_archive_table_accepted by (exact Hacc || exact Hglobal).
    rewrite session_run, Hacc.
    unfold ret; now rewrite !extend_extend.
  - unfold ret at 1.
    rewrite backup_relation_run, Hacc.
    rewrite migrate_archive_table_accepted by (exact Hacc || exact Hglobal).
    unfold ret; rewrite !extend_extend.
    now rewrite app_nil_r.
Qed.




(** *** Whatever the session answers *)







(** Two tables on a backend with boundaries: begin, commit, begin, commit. *)
Example two_tables_two_brackets :
  let a := Fixtures.adapter_of "postgres" Fixtures.accepting in
  List.filter is_boundary
    (trace (snd (migration_loop (parse_args []) a "archives"
                   [(Fixtures.users, "one"); (Fixtures.users_elsewhere, "two")]
                   None ([], []) (initial_world ∅))))
  = [BeginQuery; CommitQuery; BeginQuery; CommitQuery].
Proof. reflexivity. Qed.

(** On bigquery the same run has no boundary statement. *)
Example bigquery_has_no_brackets :
  let a := Fixtures.adapter_of "bigquery" Fixtures.accepting in
  List.filter is_boundary
    (trace (snd (migration_loop (parse_args []) a "archives"
                   [(Fixtures.users, "one"); (Fixtures.users_elsewhere, "two")]
                   None ([], []) (initial_world ∅))))
  = [].
Proof. reflexivity. Qed.

(** A session that refuses the second table's backup: the run ends with
    the second begin left open, after the first pair was closed. *)
Example refused_backup_leaves_last_begin_open :
  let a := Fixtures.adapter_of "postgres" Fixtures.refuses_repeats in
  let run :=
    migration_loop (parse_args []) a "archives"
      [(Fixtures.users, "one"); (Fixtures.users, "two")]
      None ([], []) (initial_world ∅) in
  fst run = Err (Raise "DatabaseError" "relation already exists")
  /\ List.filter is_boundary (trace (snd run))
     = [BeginQuery; CommitQuery; BeginQuery].
Proof. split; reflexivity. Qed.

(* ================================================================== *)
(** ** A run without database operations *)

(** The plan of a configuration with one group of one table, all of whose
    required fields are there. *)
Lemma single_table_plan py_repr a cfg g tbl ts ss st tt ua uk :
  archive cfg = [g] ->
  tables g = Some [tbl] ->
  entries g !! "target_schema" = Some ts ->
  entries g !! "source_schema" = Some ss ->
  tbl !! "source_table" = Some st ->
  tbl !! "target_table" = Some tt ->
  tbl !! "updated_at" = Some ua ->
  tbl !! "unique_key" = Some uk ->
  exists contents,
    collect_migration_targets py_repr a cfg
    = ([ (Relation_create (relation_quote_character a)
            (default (credentials_database cfg)
                     (entries g !! "target_database"))
            ts tt (quoting cfg),
          contents) ],
       None).
Proof.
  intros Harchive Htables Hts Hss Hst Htt Hua Huk.
  unfold collect_migration_targets, get_archive_configs.
  rewrite Harchive; cbn [get_archive_configs_from].
  unfold getitem at 1 2; rewrite Hts, Hss, Htables.
  cbn [table_copies map app collect_from].
  unfold migration_target, build_archive_data, result_bind, getitem.
  simplify_map_eq.
  unfold dict_get, default.
  destruct (entries g !! "target_database"); eexists; reflexivity.
Qed.

(** The loop body with the database left alone and files written, on a
    target that has no definition file yet. *)
Lemma migrate_one_writes_file parsed a archive_path target contents
    backups_made archives_written w :
  migrate_database parsed = false ->
  write_files parsed = true ->
  files w !! definition_path archive_path target = None ->
  exists logs1 logs2,
    migrate_one parsed a archive_path target contents
      (backups_made, archives_written) w
    = (Ok (backups_made, archives_written ++ [target]),
       extend
         (set_files
            (<[definition_path archive_path target := contents]> (files w)) w)
         (map LogInfo logs1
            ++ [MakeFile (definition_path archive_path target) contents true]
            ++ map LogInfo logs2)).
Proof.
  intros Hdb Hfiles Hnone.
  unfold migrate_one; rewrite Hdb, Hfiles.
  unfold bind, logger_info, ret; cbv beta iota.
  rewrite write_migration_file_run.
  rewrite !emit_extend, !extend_extend.
  cbn [files extend]; rewrite Hnone; cbv beta iota.
  exists [ "not migrating database for " +:+ relation_str target;
           "writing new sql file for " +:+ relation_str target;
           "Do not forget to remove or comment out the existing entry!" ],
         [ ("Migrated archive " +:+ relation_str target +:+ " -> file at ")
             +:+ definition_path archive_path target ].
  unfold extend, set_files; cbn [trace files module_RENAME_COLUMNS map app].
  now rewrite <- !app_assoc.
Qed.

Lemma no_requests_in_logs logs :
  List.filter is_session_request (map LogInfo logs) = [].
Proof. induction logs; simpl; auto. Qed.

Lemma no_files_in_logs logs :
  List.filter is_make_file (map LogInfo logs) = [].
Proof. induction logs; simpl; auto. Qed.

Lemma no_writes_in_logs logs :
  List.filter is_file_written (map LogInfo logs) = [].
Proof. induction logs; simpl; auto. Qed.

(** The run on a fresh archive directory: one archive group with one
    table (its required fields present), database operations off, file
    emission on, and no definition file for the table yet.  [main] ends
    normally with no backup made, asks nothing of the database session,
    and writes exactly one definition file, the one of the table. *)
Theorem run_without_database_operations
    py_repr normpath parsed cfg a g tbl p ps ts ss st tt ua uk w :
  migrate_database parsed = false ->
  write_files parsed = true ->
  archive cfg = [g] ->
  tables g = Some [tbl] ->
  archive_paths cfg = p :: ps ->
  entries g !! "target_schema" = Some ts ->
  entries g !! "source_schema" = Some ss ->
  tbl !! "source_table" = Some st ->
  tbl !! "target_table" = Some tt ->
  tbl !! "updated_at" = Some ua ->
  tbl !! "unique_key" = Some uk ->
  files w !! os_path_join (normpath p) (tt +:+ ".sql") = None ->
  exists target contents w',
    main py_repr normpath parsed cfg a w = (Ok ([], [target]), w')
    /\ collect_migration_targets py_repr a cfg = ([(target, contents)], None)
    /\ identifier target = tt
    /\ List.filter is_session_request (events_since w w') = []
    /\ List.filter is_make_file (events_since w w')
       = [MakeFile (os_path_join (normpath p) (tt +:+ ".sql")) contents true]
    /\ files w'
       = <[os_path_join (normpath p) (tt +:+ ".sql") := contents]> (files w).
Proof.
  intros Hdb Hfiles Harchive Htables Hpaths Hts Hss Hst Htt Hua Huk Hnone.
  destruct (single_table_plan py_repr a cfg g tbl ts ss st tt ua uk
              Harchive Htables Hts Hss Hst Htt Hua Huk) as (contents & Hplan).
  set (target := Relation_create (relation_quote_character a)
                   (default (credentials_database cfg)
                            (entries g !! "target_database"))
                   ts tt (quoting cfg)) in *.
  destruct (migrate_one_writes_file parsed a (normpath p) target contents
              [] [] (extend (extend w [MakeDirectory (normpath p)])
                       [ConnectionAcquire "migration"])
              Hdb Hfiles Hnone) as (logs1 & logs2 & Hone).
  exists target, contents.
  unfold main; rewrite Hpaths, Hplan.
  unfold bind at 1; unfold ret at 1.
  unfold bind at 1; unfold make_directory; rewrite emit_extend.
  unfold bind at 1; unfold connection_named; rewrite emit_extend.
  cbn [migration_loop]; unfold bind at 1; rewrite Hone.
  unfold ret at 1; rewrite emit_extend.
  unfold bind, logger_info, summary, ret; cbn [fst snd app map].
  rewrite !emit_extend, !extend_extend.
  eexists; split; [reflexivity|].
  split; [reflexivity|]. split; [reflexivity|].
  unfold events_since, emit, extend, set_files, definition_path;
    cbn [trace files module_RENAME_COLUMNS identifier target Relation_create].
  rewrite <- !app_assoc, drop_app_length.
  repeat split.
  - rewrite !List.filter_app; cbn [List.filter is_session_request app].
    now rewrite !no_requests_in_logs.
  - rewrite !List.filter_app; cbn [List.filter is_make_file app].
    now rewrite !no_files_in_logs.
Qed.

Lemma run_without_database_operations_witness :
  exists contents w',
    main Fixtures.single_quotes id (parse_args ["--no-database-operations"])
      (Fixtures.project [Fixtures.group_without_database])
      (Fixtures.adapter_of "postgres" Fixtures.accepting)
      (initial_world ∅)
    = (Ok ([], [Relation_create "`" "analytics" "snapshots" "users_archive"
                  Fixtures.no_quoting]),
       w')
    /\ files w' = <["archives/users_archive.sql" := contents]> ∅.
Proof.
  assert (files (initial_world ∅)
            !! os_path_join (id "archives") ("users_archive" +:+ ".sql")
          = None) as Hnone by (vm_compute; reflexivity).
  destruct (run_without_database_operations
              Fixtures.single_quotes id
              (parse_args ["--no-database-operations"])
              (Fixtures.project [Fixtures.group_without_database])
              (Fixtures.adapter_of "postgres" Fixtures.accepting)
              Fixtures.group_without_database Fixtures.users_table
              "archives" [] "snapshots" "public" "users" "users_archive"
              "ts" "id" (initial_world ∅)
              eq_refl eq_refl eq_refl eq_refl eq_refl eq_refl eq_refl
              eq_refl eq_refl eq_refl eq_refl Hnone)
    as (target & contents & w' & Hmain & Hplan & _ & _ & _ & Hfiles).
  exists contents, w'.
  injection Hplan as <- _.
  split; [exact Hmain | exact Hfiles].
Defined.

(* ================================================================== *)
(** ** What a run may ask for *)

Lemma steps_refl K w : steps K w w.
Proof.
  exists []; split; [now rewrite app_nil_r|].
  split; [reflexivity|]. split; [reflexivity | reflexivity].
Qed.

Lemma steps_trans K w1 w2 w3 :
  steps K w1 w2 -> steps K w2 w3 -> steps K w1 w3.
Proof.
  intros (l1 & T1 & K1 & F1 & E1) (l2 & T2 & K2 & F2 & E2).
  exists (l1 ++ l2); split; [now rewrite T2, T1, app_assoc|].
  split; [now rewrite forallb_app, K1, K2|].
  split; [now transitivity (files w2)|].
  rewrite List.filter_app; intros H.
  apply app_eq_nil in H as [H1 H2].
  now rewrite (E2 H2), (E1 H1).
Qed.

Lemma steps_weaken K K' w w' : includes K K' -> steps K w w' -> steps K' w w'.
Proof.
  intros Hinc (l & T & HK & F & E); exists l; repeat split; auto.
  rewrite forallb_forall in *; intros e He; apply Hinc; now apply HK.
Qed.

(** One event that is not a call of the file writer. *)
Lemma steps_emit K e w :
  K e = true -> is_make_file e = false -> steps K w (emit e w).
Proof.
  intros HK Hmf; exists [e]; split; [reflexivity|].
  split; [simpl; now rewrite HK|].
  split; [reflexivity | reflexivity].
Qed.

Lemma uses_ret K {A} (x : A) : uses K (ret x).
Proof. intros w; apply steps_refl. Qed.

Lemma uses_raise K {A} e : uses K (@raise A e).
Proof. intros w; apply steps_refl. Qed.

Lemma uses_bind K {A B} (c : M A) (k : A -> M B) :
  uses K c -> (forall x, uses K (k x)) -> uses K (bind c k).
Proof.
  intros Hc Hk w; unfold bind.
  pose proof (Hc w) as H1.
  destruct (c w) as [[x|e] w1]; cbn [snd] in *.
  - eapply steps_trans; [exact H1 | apply Hk].
  - exact H1.
Qed.

Lemma uses_session K a e :
  K e = true -> is_make_file e = false -> uses K (session a e).
Proof.
  intros HK Hmf w; unfold session.
  destruct (rejects a (trace w) e); cbn [snd]; now apply steps_emit.
Qed.

Lemma uses_logger_info K msg : includes is_log K -> uses K (logger_info msg).
Proof. intros H w; apply steps_emit; [now apply H | reflexivity]. Qed.

Lemma uses_print K msg : includes is_log K -> uses K (print msg).
Proof. intros H w; apply steps_emit; [now apply H | reflexivity]. Qed.

Lemma uses_make_file K path contents :
  includes is_make_file K -> uses K (make_file path contents).
Proof.
  intros H w; unfold make_file.
  destruct (files w !! path) eqn:E; cbn [snd].
  - exists [MakeFile path contents false]; split; [reflexivity|].
    split; [simpl; now rewrite H|].
    split; [reflexivity | reflexivity].
  - exists [MakeFile path contents true]; split; [reflexivity|].
    split; [simpl; now rewrite H|].
    split; [cbn [files emit set_files]; now apply insert_subseteq|].
    discriminate.
Qed.

Lemma uses_backup_relation K a t :
  includes is_session_request K -> includes is_log K ->
  uses K (backup_relation a t).
Proof.
  intros Hs Hl; unfold backup_relation.
  apply uses_bind; [apply uses_session; [now apply Hs | reflexivity]|].
  intros _; apply uses_bind; [now apply uses_logger_info|].
  intros _; apply uses_ret.
Qed.

Lemma uses_rename_loop K a t pairs :
  includes is_session_request K -> includes is_log K ->
  uses K (rename_loop a t pairs).
Proof.
  intros Hs Hl; induction pairs as [|rn rest IH]; cbn [rename_loop].
  - apply uses_ret.
  - apply uses_bind; [apply uses_session; [now apply Hs | reflexivity]|].
    intros _; apply uses_bind; [now apply uses_logger_info|].
    intros _; exact IH.
Qed.

Lemma uses_migrate_archive_alter_table K a t :
  includes is_session_request K -> includes is_log K ->
  uses K (migrate_archive_alter_table a t).
Proof.
  intros Hs Hl w; unfold migrate_archive_alter_table.
  destruct (String.eqb (adapter_type a) "snowflake").
  - destruct (py_iadd (module_RENAME_COLUMNS w) _) as [local shared'].
    apply (uses_rename_loop K a t (py_items local) Hs Hl
             (set_RENAME_COLUMNS shared' w)).
  - apply (uses_rename_loop K a t _ Hs Hl w).
Qed.

Lemma uses_migrate_archive_bigquery K a t :
  includes is_session_request K -> uses K (migrate_archive_bigquery a t).
Proof.
  intros Hs w; unfold migrate_archive_bigquery, create_table.
  apply uses_session; [now apply Hs | reflexivity].
Qed.

Lemma uses_migrate_archive_table K a t :
  includes is_session_request K -> includes is_log K ->
  uses K (migrate_archive_table a t).
Proof.
  intros Hs Hl; unfold migrate_archive_table.
  apply uses_bind; [now apply uses_print|].
  intros _; apply uses_bind.
  - destruct (String.eqb (adapter_type a) "bigquery").
    + now apply uses_migrate_archive_bigquery.
    + now apply uses_migrate_archive_alter_table.
  - intros r; apply uses_bind; [now apply uses_print | intros _; apply uses_ret].
Qed.

Lemma uses_perform_table_migration K a t :
  includes is_session_request K -> includes is_log K ->
  uses K (perform_table_migration a t).
Proof.
  intros Hs Hl; unfold perform_table_migration, add_begin_query,
    add_commit_query.
  apply uses_bind.
  { destruct (negb _); [|apply uses_ret].
    apply uses_session; [now apply Hs | reflexivity]. }
  intros _; apply uses_bind; [now apply uses_backup_relation|].
  intros backup; apply uses_bind; [now apply uses_migrate_archive_table|].
  intros _; apply uses_bind; [|intros _; apply uses_ret].
  destruct (negb _); [|apply uses_ret].
  apply uses_session; [now apply Hs | reflexivity].
Qed.

Lemma uses_write_migration_file K target archive_path contents :
  includes is_make_file K -> includes is_log K ->
  uses K (write_migration_file target archive_path contents).
Proof.
  intros Hf Hl; unfold write_migration_file.
  apply uses_bind; [now apply uses_make_file|].
  intros wrote; apply uses_bind; [now apply uses_logger_info|].
  intros _; apply uses_ret.
Qed.

Lemma table_kinds_log parsed : includes is_log (table_kinds parsed).
Proof. intros [] H; try discriminate; reflexivity. Qed.

Lemma table_kinds_session parsed :
  migrate_database parsed = true ->
  includes is_session_request (table_kinds parsed).
Proof. intros Hdb [] H; try discriminate; exact Hdb. Qed.

Lemma table_kinds_make_file parsed :
  write_files parsed = true -> includes is_make_file (table_kinds parsed).
Proof. intros Hf [] H; try discriminate; exact Hf. Qed.

Lemma uses_migrate_one parsed a archive_path target contents lists :
  uses (table_kinds parsed)
       (migrate_one parsed a archive_path target contents lists).
Proof.
  pose proof (table_kinds_log parsed) as Hl.
  destruct lists as [backups_made archives_written]; unfold migrate_one.
  apply uses_bind.
  { destruct (migrate_database parsed) eqn:Hdb.
    - apply uses_bind; [now apply uses_logger_info|].
      intros _; apply uses_bind; [|intros b; apply uses_ret].
      apply uses_perform_table_migration;
        [now apply table_kinds_session | exact Hl].
    - apply uses_bind; [now apply uses_logger_info|].
      intros _; apply uses_ret. }
  intros backups'; apply uses_bind; [|intros x; apply uses_ret].
  destruct (write_files parsed) eqn:Hf.
  - apply uses_bind; [now apply uses_logger_info|].
    intros _; apply uses_bind; [now apply uses_logger_info|].
    intros _; apply uses_bind; [|intros x; apply uses_ret].
    apply uses_write_migration_file;
      [now apply table_kinds_make_file | exact Hl].
  - apply uses_bind; [now apply uses_logger_info|].
    intros _; apply uses_ret.
Qed.

Lemma uses_migration_loop parsed a archive_path targets ending lists :
  uses (table_kinds parsed)
       (migration_loop parsed a archive_path targets ending lists).
Proof.
  revert lists; induction targets as [|[target contents] rest IH];
    intros lists; cbn [migration_loop].
  - destruct ending; [apply uses_raise | apply uses_ret].
  - apply uses_bind; [apply uses_migrate_one | intros lists'; apply IH].
Qed.

Lemma uses_connection_named K {A} name (body : M A) :
  includes is_connection K -> uses K body ->
  uses K (connection_named name body).
Proof.
  intros Hc Hb w; unfold connection_named.
  pose proof (Hb (emit (ConnectionAcquire name) w)) as H.
  destruct (body (emit (ConnectionAcquire name) w)) as [r w']; cbn [snd] in *.
  apply (steps_trans K w (emit (ConnectionAcquire name) w));
    [apply steps_emit; [now apply Hc | reflexivity]|].
  apply (steps_trans K _ w'); [exact H|].
  apply steps_emit; [now apply Hc | reflexivity].
Qed.

Lemma uses_summary K heading relations :
  includes is_log K -> uses K (summary heading relations).
Proof.
  intros Hl; destruct relations; cbn [summary];
    [apply uses_ret | now apply uses_logger_info].
Qed.

Lemma uses_main py_repr normpath parsed cfg a :
  uses (run_kinds parsed) (main py_repr normpath parsed cfg a).
Proof.
  assert (includes is_log (run_kinds parsed)) as Hl
    by (intros [] H; try discriminate; reflexivity).
  unfold main.
  apply uses_bind.
  { destruct (archive_paths cfg); [apply uses_raise | apply uses_ret]. }
  intros archive_path; apply uses_bind.
  { intros w; apply steps_emit; reflexivity. }
  intros _.
  destruct (collect_migration_targets py_repr a cfg) as [targets ending].
  apply uses_bind.
  { apply uses_connection_named.
    - intros [] H; try discriminate; reflexivity.
    - intros w; eapply steps_weaken; [|apply uses_migration_loop].
      intros [] H; try discriminate; exact H || reflexivity. }
  intros lists; apply uses_bind; [now apply uses_logger_info|].
  intros _; apply uses_bind; [now apply uses_summary|].
  intros _; apply uses_bind; [now apply uses_summary|].
  intros _; apply uses_ret.
Qed.

Lemma steps_events_since K w w' :
  steps K w w' ->
  forallb K (events_since w w') = true
  /\ files w ⊆ files w'
  /\ (List.filter is_make_file (events_since w w') = [] -> files w' = files w).
Proof.
  intros (events & T & HK & F & E).
  unfold events_since; rewrite T, drop_app_length; auto.
Qed.

Lemma filter_none_of_kind (K f : Event -> bool) events :
  forallb K events = true ->
  (forall e, K e = true -> f e = false) ->
  List.filter f events = [].
Proof.
  intros HK Hf; induction events as [|e rest IH]; [reflexivity|].
  simpl in HK; apply andb_prop in HK as [He Hrest].
  simpl; now rewrite (Hf e He), IH.
Qed.

(** X1: with [--no-database-operations], for any configuration, any
    adapter and whatever its session would answer, [main] asks nothing of
    the database session: no statement, no table creation, no transaction
    boundary. *)
Theorem no_database_operations_never_asks_session
    py_repr normpath parsed cfg a w :
  migrate_database parsed = false ->
  List.filter is_session_request
    (events_since w (snd (main py_repr normpath parsed cfg a w)))
  = [].
Proof.
  intros Hdb.
  destruct (steps_events_since _ _ _ (uses_main py_repr normpath parsed cfg a w))
    as (HK & _ & _).
  apply (filter_none_of_kind (run_kinds parsed)); [exact HK|].
  intros [] H; try reflexivity; cbn [run_kinds] in H; congruence.
Qed.

Lemma no_database_operations_never_asks_session_witness :
  List.filter is_session_request
    (trace (snd (main Fixtures.single_quotes id
                   (parse_args ["--no-database-operations"])
                   (Fixtures.project [Fixtures.group_without_database;
                                      Fixtures.group_without_target_schema])
                   (Fixtures.adapter_of "postgres" Fixtures.refuses_repeats)
                   (initial_world ∅))))
  = [].
Proof.
  exact (no_database_operations_never_asks_session
           Fixtures.single_quotes id
           (parse_args ["--no-database-operations"])
           (Fixtures.project [Fixtures.group_without_database;
                              Fixtures.group_without_target_schema])
           (Fixtures.adapter_of "postgres" Fixtures.refuses_repeats)
           (initial_world ∅) eq_refl).
Defined.

(** X2: with [--no-files], for any configuration and any session, [main]
    never calls the file-writing collaborator and leaves the files as
    they were. *)
Theorem no_files_leaves_files_alone py_repr normpath parsed cfg a w :
  write_files parsed = false ->
  let w' := snd (main py_repr normpath parsed cfg a w) in
  List.filter is_make_file (events_since w w') = []
  /\ files w' = files w.
Proof.
  intros Hf w'; subst w'.
  destruct (steps_events_since _ _ _ (uses_main py_repr normpath parsed cfg a w))
    as (HK & _ & E).
  assert (List.filter is_make_file
            (events_since w (snd (main py_repr normpath parsed cfg a w)))
          = []) as Hnone.
  { apply (filter_none_of_kind (run_kinds parsed)); [exact HK|].
    intros [] H; try reflexivity; cbn [run_kinds] in H; congruence. }
  split; [exact Hnone | exact (E Hnone)].
Qed.

Lemma no_files_leaves_files_alone_witness :
  files (snd (main Fixtures.single_quotes id (parse_args ["--no-files"])
                (Fixtures.project [Fixtures.group_without_database])
                (Fixtures.adapter_of "postgres" Fixtures.accepting)
                (initial_world ∅)))
  = ∅.
Proof.
  exact (proj2 (no_files_leaves_files_alone
                  Fixtures.single_quotes id (parse_args ["--no-files"])
                  (Fixtures.project [Fixtures.group_without_database])
                  (Fixtures.adapter_of "postgres" Fixtures.accepting)
                  (initial_world ∅) eq_refl)).
Defined.

(** X3: a file that exists when [main] starts has the same contents when
    it ends, whatever the switches, the configuration and the session:
    the script never overwrites or removes a file. *)
Theorem existing_files_survive_a_run
    py_repr normpath parsed cfg a w path contents :
  files w !! path = Some contents ->
  files (snd (main py_repr normpath parsed cfg a w)) !! path = Some contents.
Proof.
  intros H.
  destruct (steps_events_since _ _ _ (uses_main py_repr normpath parsed cfg a w))
    as (_ & Hsub & _).
  exact (lookup_weaken _ _ _ _ H Hsub).
Qed.

Lemma existing_files_survive_a_run_witness :
  files (snd (main Fixtures.single_quotes id (parse_args [])
                (Fixtures.project [Fixtures.group_without_database])
                (Fixtures.adapter_of "postgres" Fixtures.accepting)
                (initial_world
                   (<["archives/users_archive.sql" := "-- by hand"]> ∅))))
    !! "archives/users_archive.sql"
  = Some "-- by hand".
Proof.
  apply (existing_files_survive_a_run
           Fixtures.single_quotes id (parse_args [])
           (Fixtures.project [Fixtures.group_without_database])
           (Fixtures.adapter_of "postgres" Fixtures.accepting)
           (initial_world (<["archives/users_archive.sql" := "-- by hand"]> ∅))
           "archives/users_archive.sql" "-- by hand").
  vm_compute; reflexivity.
Defined.

(** The shape of every run of [main] that has an archive directory. *)
Lemma main_shape py_repr normpath parsed cfg a p ps w :
  archive_paths cfg = p :: ps ->
  exists body tail r w',
    main py_repr normpath parsed cfg a w = (r, w')
    /\ trace w'
       = trace w
           ++ [MakeDirectory (normpath p); ConnectionAcquire "migration"]
           ++ body ++ [ConnectionRelease "migration"] ++ tail
    /\ forallb (table_kinds parsed) body = true
    /\ forallb is_log tail = true
    /\ (failed r -> tail = []).
Proof.
  intros Hpaths.
  unfold main; rewrite Hpaths.
  unfold bind at 1; unfold ret at 1.
  unfold bind at 1; unfold make_directory.
  destruct (collect_migration_targets py_repr a cfg) as [targets ending].
  unfold bind at 1; unfold connection_named.
  destruct (uses_migration_loop parsed a (normpath p) targets ending ([], [])
              (emit (ConnectionAcquire "migration")
                 (emit (MakeDirectory (normpath p)) w)))
    as (body & T & HK & _ & _).
  destruct (migration_loop parsed a (normpath p) targets ending ([], []) _)
    as [r w1]; cbn [snd] in T.
  assert (forall tail,
             trace (extend w1 ([ConnectionRelease "migration"] ++ tail))
             = trace w
                 ++ [MakeDirectory (normpath p); ConnectionAcquire "migration"]
                 ++ body ++ [ConnectionRelease "migration"] ++ tail) as Hev.
  { intros tail; cbn [trace extend emit] in *.
    rewrite T. now rewrite <- !app_assoc. }
  destruct r as [[backups written]|e].
  - unfold summary; cbn [fst snd].
    destruct backups, written; unfold bind, logger_info, ret;
      rewrite !emit_extend, ?extend_extend, <- ?app_assoc;
      eexists body, _, _, _; (split; [reflexivity|]);
      (split; [apply Hev|]); (split; [exact HK|]);
      (split; [reflexivity|]); intros [e He]; discriminate He.
  - exists body, [], (Err e), (extend w1 ([ConnectionRelease "migration"] ++ [])).
    split; [reflexivity|].
    split; [apply (Hev [])|]. repeat split; auto.
Qed.

(** X4: once the archive directory is named, [main] makes the directory,
    takes the connection [migration], migrates the tables, and gives the
    connection back, however the migration ends.  Every request to the
    session and every file written lies between taking and giving back;
    after that only log lines follow, and none at all when the run ends
    with an exception. *)
Theorem connection_held_for_all_tables py_repr normpath parsed cfg a p ps w :
  archive_paths cfg = p :: ps ->
  let run := main py_repr normpath parsed cfg a w in
  exists body tail,
    events_since w (snd run)
    = [MakeDirectory (normpath p); ConnectionAcquire "migration"]
        ++ body ++ [ConnectionRelease "migration"] ++ tail
    /\ forallb (table_kinds parsed) body = true
    /\ List.filter is_connection body = []
    /\ forallb is_log tail = true
    /\ (failed (fst run) -> tail = []).
Proof.
  intros Hpaths run; subst run.
  destruct (main_shape py_repr normpath parsed cfg a p ps w Hpaths)
    as (body & tail & r & w' & -> & T & HK & Hlog & Hfail).
  exists body, tail; cbn [fst snd].
  split; [unfold events_since; now rewrite T, drop_app_length|].
  split; [exact HK|]. split; [|split; [exact Hlog | exact Hfail]].
  apply (filter_none_of_kind (table_kinds parsed)); [exact HK|].
  intros [] H; try reflexivity; discriminate.
Qed.

Lemma connection_held_for_all_tables_witness :
  exists body,
    trace (snd (main Fixtures.single_quotes id (parse_args [])
                  (Fixtures.project [Fixtures.group_without_database;
                                     Fixtures.group_without_target_schema])
                  (Fixtures.adapter_of "postgres" Fixtures.accepting)
                  (initial_world ∅)))
    = [MakeDirectory "archives"; ConnectionAcquire "migration"]
        ++ body ++ [ConnectionRelease "migration"]
    /\ List.filter is_connection body = [].
Proof.
  destruct (connection_held_for_all_tables
              Fixtures.single_quotes id (parse_args [])
              (Fixtures.project [Fixtures.group_without_database;
                                 Fixtures.group_without_target_schema])
              (Fixtures.adapter_of "postgres" Fixtures.accepting)
              "archives" [] (initial_world ∅) eq_refl)
    as (body & tail & Hev & _ & Hnc & _ & Hfail).
  exists body; split; [|exact Hnc].
  rewrite (Hfail ltac:(eexists; reflexivity)) in Hev.
  rewrite app_nil_r in Hev. exact Hev.
Defined.

(* ================================================================== *)
(** ** Failures in the middle of a table *)

(** The loop runs the renames of a prefix of the pairs: all of them, or
    up to the first statement the session refuses. *)
Lemma rename_loop_prefix a t pairs w :
  exists done rest,
    pairs = done ++ rest
    /\ ((rest = []
         /\ rename_loop a t pairs w
            = (Ok tt, extend w (rename_events a t done)))
        \/ (exists rn rest' x,
               rest = rn :: rest'
               /\ rejects a (trace w ++ rename_events a t done)
                    (Execute (rename_sql a t rn)) = Some x
               /\ rename_loop a t pairs w
                  = (Err x,
                     extend w (rename_events a t done
                                 ++ [Execute (rename_sql a t rn)])))).
Proof.
  revert w; induction pairs as [|rn pairs IH]; intros w.
  - exists [], []; split; [reflexivity|]. left; split; [reflexivity|].
    cbn [rename_loop rename_events flat_map]; unfold ret.
    now rewrite extend_nil.
  - cbn [rename_loop]; unfold bind, execute, logger_info.
    rewrite session_run.
    destruct (rejects a (trace w) (Execute (rename_sql a t rn))) as [x|] eqn:E.
    + exists [], (rn :: pairs); split; [reflexivity|].
      right; exists rn, pairs, x; split; [reflexivity|].
      cbn [rename_events flat_map app]; rewrite app_nil_r.
      split; [exact E | reflexivity].
    + rewrite emit_extend, extend_extend.
      destruct (IH (extend w ([Execute (rename_sql a t rn)]
                                ++ [LogInfo (rename_log a rn)])))
        as (done & rest & -> & [[-> Hrun]|(rn' & rest' & x & -> & Hrej & Hrun)]).
      * exists (rn :: done), []; split; [reflexivity|].
        left; split; [reflexivity|].
        rewrite Hrun, extend_extend; reflexivity.
      * exists (rn :: done), (rn' :: rest'); split; [reflexivity|].
        right; exists rn', rest', x; split; [reflexivity|].
        cbn [trace extend] in Hrej; rewrite <- app_assoc in Hrej.
        split; [exact Hrej|].
        rewrite Hrun, extend_extend; reflexivity.
Qed.

(** X5: whatever the session answers, AlterRename runs the renames of the
    backend's pairs in order and stops at the first statement the session
    refuses: the renames before it have been executed and logged, the
    refused statement is the last thing asked, no later rename is tried
    and nothing is undone; the exception is the session's. *)
Theorem alter_rename_stops_at_first_refusal a t w :
  module_RENAME_COLUMNS w = RENAME_COLUMNS ->
  let run := migrate_archive_alter_table a t w in
  exists done rest,
    alter_pairs (adapter_type a) = done ++ rest
    /\ ((rest = []
         /\ fst run = Ok tt
         /\ events_since w (snd run) = rename_events a t done)
        \/ (exists rn rest' x,
               rest = rn :: rest'
               /\ rejects a (trace w ++ rename_events a t done)
                    (Execute (rename_sql a t rn)) = Some x
               /\ fst run = Err x
               /\ events_since w (snd run)
                  = rename_events a t done ++ [Execute (rename_sql a t rn)])).
Proof.
  intros Hglobal run; subst run.
  rewrite (migrate_archive_alter_table_tuple a t w three_pairs Hglobal).
  fold (alter_pairs (adapter_type a)).
  destruct (rename_loop_prefix a t (alter_pairs (adapter_type a)) w)
    as (done & rest & Hsplit & [[-> Hrun]|(rn & rest' & x & -> & Hrej & Hrun)]);
    exists done; eexists; (split; [exact Hsplit|]); rewrite Hrun; cbn [fst snd];
    rewrite events_since_extend.
  - left; auto.
  - right; exists rn, rest', x; auto.
Qed.

Lemma alter_rename_stops_at_first_refusal_witness :
  let a :=
    {| adapter_type := "postgres";
       quote := Fixtures.backtick;
       quote_as_configured := fun name _ => name;
       relation_quote_character := "`";
       rejects := fun history e =>
         match e with
         | Execute "alter table analytics.snapshots.users rename column `valid_to` to dbt_valid_to" =>
             Some (Raise "DatabaseError" "no such column")
         | _ => None
         end |} in
  exists done rest,
    three_pairs = done ++ rest
    /\ length done = 1
    /\ fst (migrate_archive_alter_table a Fixtures.users (initial_world ∅))
       = Err (Raise "DatabaseError" "no such column").
Proof.
  intros a.
  destruct (alter_rename_stops_at_first_refusal a Fixtures.users
              (initial_world ∅) eq_refl)
    as (done & rest & Hsplit & [(_ & Hok & _)|(rn & rest' & x & -> & _ & Herr & Hev)]).
  - discriminate Hok.
  - exists done, (rn :: rest'); split; [exact Hsplit|].
    split; [|reflexivity].
    assert (length (events_since (initial_world ∅)
                      (snd (migrate_archive_alter_table a Fixtures.users
                              (initial_world ∅)))) = 3) as Hlen
      by (vm_compute; reflexivity).
    rewrite Hev, length_app in Hlen.
    destruct done as [|d1 [|d2 done]]; [discriminate Hlen | reflexivity|].
    exfalso; revert Hlen.
    cbn [rename_events flat_map app length]; lia.
Defined.

(** X6: when the session refuses the backup's [create table], the
    table's migration ends there with the session's exception: no rename
    statement and no projection is asked for, and no commit follows the
    begin. *)
Theorem refused_backup_stops_the_table a t w x :
  (has_boundaries a = true -> rejects a (trace w) BeginQuery = None) ->
  rejects a
    (trace w ++ (if has_boundaries a then [BeginQuery] else []))
    (Execute (backup_sql t)) = Some x ->
  perform_table_migration a t w
  = (Err x,
     extend w ((if has_boundaries a then [BeginQuery] else [])
                 ++ [Execute (backup_sql t)])).
Proof.
  unfold perform_table_migration, has_boundaries, bind, add_begin_query.
  destruct (negb (String.eqb (adapter_type a) "bigquery")).
  - intros Hbegin Hbackup.
    rewrite session_run, (Hbegin eq_refl), backup_relation_run.
    cbn [trace extend]; rewrite Hbackup.
    now rewrite extend_extend.
  - intros _ Hbackup; unfold ret at 1.
    rewrite backup_relation_run.
    rewrite app_nil_r in Hbackup; now rewrite Hbackup.
Qed.

Lemma refused_backup_stops_the_table_witness :
  let a := Fixtures.adapter_of "postgres" Fixtures.refuses_repeats in
  let w := extend (initial_world ∅) [Execute (backup_sql Fixtures.users)] in
  trace (snd (perform_table_migration a Fixtures.users w))
  = [Execute (backup_sql Fixtures.users); BeginQuery;
     Execute (backup_sql Fixtures.users)].
Proof.
  intros a w.
  rewrite (refused_backup_stops_the_table a Fixtures.users w
             (Raise "DatabaseError" "relation already exists")
             (fun _ => eq_refl) eq_refl).
  reflexivity.
Defined.

(** X7: on bigquery, whatever the session answers, the migration of a
    table asks the session for one thing only: a [create_table] of the
    projection at the table's own database, schema and name.  It succeeds
    exactly when the session accepts that request, and only then is the
    closing progress line printed. *)
Theorem bigquery_rebuilds_in_place a t w :
  adapter_type a = "bigquery" ->
  module_RENAME_COLUMNS w = RENAME_COLUMNS ->
  let request :=
    CreateTable (database t) (schema t) (identifier t) (projection_sql a t) in
  let start := Print ("starting migration of " +:+ relation_str t) in
  let finish := Print ("finished migration of " +:+ relation_str t) in
  migrate_archive_table a t w
  = match rejects a (trace w ++ [start]) request with
    | None => (Ok tt, extend w [start; request; finish])
    | Some x => (Err x, extend w [start; request])
    end.
Proof.
  intros Htype Hglobal request start finish.
  assert (String.eqb (adapter_type a) "bigquery" = true) as E
    by (rewrite Htype; reflexivity).
  unfold migrate_archive_table, bind, print, ret.
  rewrite E; cbv iota.
  unfold migrate_archive_bigquery, create_table.
  rewrite session_run.
  cbn [module_RENAME_COLUMNS emit trace]; rewrite Hglobal.
  fold start finish.
  change (CreateTable (database t) (schema t) (identifier t) _) with request.
  destruct (rejects a (trace w ++ [start]) request);
    now rewrite !emit_extend, !extend_extend.
Qed.

Lemma bigquery_rebuilds_in_place_witness :
  List.filter is_session_request
    (trace (snd (migrate_archive_table
                   (Fixtures.adapter_of "bigquery" Fixtures.accepting)
                   Fixtures.users (initial_world ∅))))
  = [CreateTable "analytics" "snapshots" "users"
       "select * EXCEPT(`valid_from`, `valid_to`, `scd_id`), `valid_from` as dbt_valid_from, `valid_to` as dbt_valid_to, `scd_id` as dbt_scd_id from analytics.snapshots.users"].
Proof.
  rewrite (bigquery_rebuilds_in_place
             (Fixtures.adapter_of "bigquery" Fixtures.accepting)
             Fixtures.users (initial_world ∅) eq_refl eq_refl).
  reflexivity.
Defined.

(** X8: the backup is never the table itself: its identifier differs
    from the source's, while database, schema and quoting are the
    source's. *)
Theorem backup_is_another_table a t w b :
  fst (backup_relation a t w) = Ok b ->
  identifier b <> identifier t
  /\ b <> t
  /\ database b = database t
  /\ schema b = schema t
  /\ quote_policy b = quote_policy t.
Proof.
  rewrite backup_relation_run.
  destruct (rejects a (trace w) _); [discriminate|].
  cbn [fst]; intros [= <-].
  assert (identifier (backup_target t) <> identifier t) as Hne.
  { cbn [backup_target incorporate identifier]; intros H.
    apply (f_equal String.length) in H.
    rewrite length_append in H; cbn in H; lia. }
  split; [exact Hne|]. split; [congruence|]. repeat split.
Qed.

Lemma backup_is_another_table_witness :
  backup_target Fixtures.users <> Fixtures.users.
Proof.
  exact (proj1 (proj2 (backup_is_another_table
                         (Fixtures.adapter_of "postgres" Fixtures.accepting)
                         Fixtures.users (initial_world ∅)
                         (backup_target Fixtures.users) eq_refl))).
Defined.

(* ================================================================== *)
(** ** The report and the order of the tables *)

Lemma migrate_one_accepted_lists parsed a archive_path target contents
    backups_made archives_written w :
  accepts_all a ->
  module_RENAME_COLUMNS w = RENAME_COLUMNS ->
  exists w',
    migrate_one parsed a archive_path target contents
      (backups_made, archives_written) w
    = (Ok (backups_made
             ++ (if migrate_database parsed then [backup_target target] else []),
           archives_written
             ++ (if write_files parsed then [target] else [])),
       w')
    /\ module_RENAME_COLUMNS w' = RENAME_COLUMNS.
Proof.
  intros Hacc Hglobal.
  unfold migrate_one.
  destruct (migrate_database parsed), (write_files parsed);
    unfold bind, logger_info, ret;
    rewrite ?emit_extend;
    try match goal with
        | |- context [perform_table_migration a target ?W] =>
            rewrite (perform_table_migration_accepted a target W Hacc
                       (Hglobal : module_RENAME_COLUMNS W = RENAME_COLUMNS))
        end;
    rewrite ?write_migration_file_run;
    try match goal with
        | |- context [files ?W !! ?P] => destruct (files W !! P)
        end;
    rewrite ?app_nil_r;
    eexists; (split; [reflexivity | exact Hglobal]).
Qed.

Lemma migration_loop_accepted_lists parsed a archive_path targets lists w :
  accepts_all a ->
  module_RENAME_COLUMNS w = RENAME_COLUMNS ->
  fst (migration_loop parsed a archive_path targets None lists w)
  = Ok (fst lists
          ++ (if migrate_database parsed
              then map (fun tc => backup_target (fst tc)) targets else []),
        snd lists
          ++ (if write_files parsed then map fst targets else [])).
Proof.
  intros Hacc; revert lists w.
  induction targets as [|[target contents] rest IH];
    intros [backups_made archives_written] w Hglobal.
  - cbn [migration_loop map fst snd]; unfold ret; cbn [fst].
    destruct (migrate_database parsed), (write_files parsed);
      now rewrite !app_nil_r.
  - cbn [migration_loop]; unfold bind.
    destruct (migrate_one_accepted_lists parsed a archive_path target contents
                backups_made archives_written w Hacc Hglobal)
      as (w' & -> & Hglobal').
    rewrite (IH _ w' Hglobal'); cbn [fst snd map].
    destruct (migrate_database parsed), (write_files parsed);
      now rewrite <- ?app_assoc, ?app_nil_r.
Qed.

(** X9: with a session that accepts its statements and a plan that ends
    without an exception, [main] ends normally and its two report lists
    follow the plan: one backup per table when the database is migrated,
    each the backup of that table, and one entry per table when files are
    written, both in the order of the plan. *)
Theorem report_follows_the_plan py_repr normpath parsed cfg a p ps targets w :
  accepts_all a ->
  module_RENAME_COLUMNS w = RENAME_COLUMNS ->
  archive_paths cfg = p :: ps ->
  collect_migration_targets py_repr a cfg = (targets, None) ->
  fst (main py_repr normpath parsed cfg a w)
  = Ok (if migrate_database parsed
        then map (fun tc => backup_target (fst tc)) targets else [],
        if write_files parsed then map fst targets else []).
Proof.
  intros Hacc Hglobal Hpaths Hplan.
  unfold main; rewrite Hpaths, Hplan.
  unfold bind at 1; unfold ret at 1.
  unfold bind at 1; unfold make_directory.
  unfold bind at 1; unfold connection_named.
  pose proof (migration_loop_accepted_lists parsed a (normpath p) targets
                ([], [])
                (emit (ConnectionAcquire "migration")
                   (emit (MakeDirectory (normpath p)) w))
                Hacc Hglobal) as Hloop.
  destruct (migration_loop parsed a (normpath p) targets None ([], []) _)
    as [r w1]; cbn [fst snd app] in Hloop; subst r.
  unfold summary; cbn [fst snd].
  destruct (if migrate_database parsed
            then map (fun tc => backup_target (fst tc)) targets else []),
           (if write_files parsed then map fst targets else []);
    reflexivity.
Qed.

Lemma report_follows_the_plan_witness :
  exists contents,
    collect_migration_targets Fixtures.single_quotes
      (Fixtures.adapter_of "postgres" Fixtures.accepting)
      (Fixtures.project [Fixtures.group_without_database])
    = ([(Relation_create "`" "analytics" "snapshots" "users_archive"
           Fixtures.no_quoting, contents)], None)
    /\ fst (main Fixtures.single_quotes id (parse_args [])
              (Fixtures.project [Fixtures.group_without_database])
              (Fixtures.adapter_of "postgres" Fixtures.accepting)
              (initial_world ∅))
       = Ok ([backup_target
                (Relation_create "`" "analytics" "snapshots" "users_archive"
                   Fixtures.no_quoting)],
             [Relation_create "`" "analytics" "snapshots" "users_archive"
                Fixtures.no_quoting]).
Proof.
  eexists; split; [reflexivity|].
  exact (report_follows_the_plan Fixtures.single_quotes id (parse_args [])
           (Fixtures.project [Fixtures.group_without_database])
           (Fixtures.adapter_of "postgres" Fixtures.accepting)
           "archives" [] _ (initial_world ∅)
           (fun _ _ => eq_refl) eq_refl eq_refl eq_refl).
Defined.

(** A plan that ends with an exception runs like the plan without it,
    and then raises. *)
Lemma migration_loop_ending parsed a archive_path targets e lists w :
  migration_loop parsed a archive_path targets (Some e) lists w
  = (match fst (migration_loop parsed a archive_path targets None lists w) with
     | Ok _ => Err e
     | Err x => Err x
     end,
     snd (migration_loop parsed a archive_path targets None lists w)).
Proof.
  revert lists w; induction targets as [|[target contents] rest IH];
    intros lists w; cbn [migration_loop].
  - reflexivity.
  - unfold bind.
    destruct (migrate_one parsed a archive_path target contents lists w)
      as [[lists'|x] w1]; [apply IH | reflexivity].
Qed.

Lemma collect_from_app py_repr a cfg pre rest ending items :
  collect_from py_repr a cfg pre None = (items, None) ->
  collect_from py_repr a cfg (pre ++ rest) ending
  = (items ++ fst (collect_from py_repr a cfg rest ending),
     snd (collect_from py_repr a cfg rest ending)).
Proof.
  revert items; induction pre as [|spec pre IH]; intros items H.
  - injection H as <-. cbn [app].
    now destruct (collect_from py_repr a cfg rest ending).
  - cbn [collect_from app] in *.
    destruct (migration_target py_repr a cfg spec) as [item|x];
      [|discriminate].
    destruct (collect_from py_repr a cfg pre None) as [more e] eqn:E.
    injection H as <- ->.
    rewrite (IH more eq_refl).
    reflexivity.
Qed.

(** X10: a table entry the plan cannot resolve (a field it needs is
    missing) is found only when the plan reaches it.  The tables before
    it are migrated exactly as in a plan that stops before it, and only
    then is the [KeyError] raised; the malformed table and those after it
    are not touched. *)
Theorem malformed_table_found_after_earlier_tables
    py_repr parsed a cfg archive_path pre bad rest ending items e lists w :
  collect_from py_repr a cfg pre None = (items, None) ->
  migration_target py_repr a cfg bad = Err e ->
  let plan := collect_from py_repr a cfg (pre ++ bad :: rest) ending in
  let good := migration_loop parsed a archive_path items None lists w in
  plan = (items, Some e)
  /\ migration_loop parsed a archive_path (fst plan) (snd plan) lists w
     = (match fst good with Ok _ => Err e | Err x => Err x end, snd good).
Proof.
  intros Hpre Hbad plan good; subst plan good.
  rewrite (collect_from_app py_repr a cfg pre (bad :: rest) ending items Hpre).
  cbn [collect_from]; rewrite Hbad; cbn [fst snd].
  rewrite app_nil_r; split; [reflexivity|].
  apply migration_loop_ending.
Qed.

Lemma malformed_table_found_after_earlier_tables_witness :
  let a := Fixtures.adapter_of "postgres" Fixtures.accepting in
  let cfg := Fixtures.project [] in
  let good : gmap string string :=
    <["target_database" := "analytics"]>
      (<["target_schema" := "snapshots"]>
         (<["source_database" := "analytics"]>
            (<["source_schema" := "public"]> Fixtures.users_table))) in
  let bad : gmap string string := delete "updated_at" good in
  exists items,
    collect_from Fixtures.single_quotes a cfg [good; bad; good] None
    = (items, Some (KeyError "updated_at"))
    /\ length items = 1.
Proof.
  intros a cfg good bad.
  eexists; split; [|shelve].
  refine (proj1 (malformed_table_found_after_earlier_tables
                   Fixtures.single_quotes (parse_args []) a cfg "archives"
                   [good] bad [good] None _ (KeyError "updated_at")
                   ([], []) (initial_world ∅) _ _)).
  - reflexivity.
  - reflexivity.
  Unshelve. reflexivity.
Defined.

(* ================================================================== *)
(** ** From the configuration to the targets *)

(** X11: the specs of a group are its tables, one spec per table and in
    their order; every field of a table other than the four address
    fields is copied as it is, and the four address fields are the
    group's resolved ones even where a table has such a field of its
    own. *)
Theorem specs_copy_their_tables d g rest ts ss tbls :
  entries g !! "target_schema" = Some ts ->
  entries g !! "source_schema" = Some ss ->
  tables g = Some tbls ->
  exists specs more,
    fst (get_archive_configs_from d (g :: rest)) = specs ++ more
    /\ more = fst (get_archive_configs_from d rest)
    /\ Forall2
         (fun (table spec : gmap string string) =>
            (forall key,
                ~ In key ["target_database"; "target_schema";
                          "source_database"; "source_schema"] ->
                spec !! key = table !! key)
            /\ spec !! "target_database"
               = Some (default d (entries g !! "target_database"))
            /\ spec !! "target_schema" = Some ts
            /\ spec !! "source_database"
               = Some (default d (entries g !! "source_database"))
            /\ spec !! "source_schema" = Some ss)
         tbls specs.
Proof.
  intros Hts Hss Htables.
  cbn [get_archive_configs_from]; unfold getitem, dict_get.
  rewrite Hts, Hss, Htables.
  destruct (get_archive_configs_from d rest) as [more ending].
  eexists _, more; split; [reflexivity|]. split; [reflexivity|].
  unfold table_copies; apply Forall2_fmap_r, Forall_Forall2_diag.
  apply Forall_forall; intros table _.
  split.
  - intros key Hkey.
    rewrite !lookup_insert_ne; [reflexivity|..];
      intros <-; apply Hkey; cbn; auto.
  - unfold default.
    destruct (entries g !! "target_database"),
             (entries g !! "source_database");
      repeat split; now simplify_map_eq.
Qed.

Lemma specs_copy_their_tables_witness :
  let g :=
    {| entries := <["target_schema" := "snapshots"]>
                    (<["source_schema" := "public"]> ∅);
       tables := Some [<["target_schema" := "elsewhere"]>
                         Fixtures.users_table] |} in
  exists spec,
    fst (get_archive_configs_from "analytics" [g]) = [spec]
    /\ spec !! "target_schema" = Some "snapshots"
    /\ spec !! "unique_key" = Some "id".
Proof.
  intros g.
  assert (entries g !! "target_schema" = Some "snapshots") as Hts
    by (vm_compute; reflexivity).
  assert (entries g !! "source_schema" = Some "public") as Hss
    by (vm_compute; reflexivity).
  destruct (specs_copy_their_tables "analytics" g [] "snapshots" "public"
              [<["target_schema" := "elsewhere"]> Fixtures.users_table]
              Hts Hss eq_refl)
    as (specs & more & Hspecs & Hmore & Hall).
  cbn [get_archive_configs_from fst] in Hmore; subst more.
  rewrite app_nil_r in Hspecs.
  apply Forall2_cons_inv_l in Hall
    as (spec & specs' & (Hcopy & _ & Hts' & _) & Hnil & ->).
  apply Forall2_nil_inv_l in Hnil as ->.
  exists spec; split; [exact Hspecs|]. split; [exact Hts'|].
  rewrite Hcopy; [vm_compute; reflexivity|].
  cbn; intros [H|[H|[H|[H|[]]]]]; discriminate H.
Defined.

(** The specs [collect_from] has turned into targets when it stops. *)
Lemma collect_from_targets py_repr a cfg specs ending :
  let plan := collect_from py_repr a cfg specs ending in
  Forall2 (fun spec item => migration_target py_repr a cfg spec = Ok item)
          (take (length (fst plan)) specs) (fst plan)
  /\ (length (fst plan) = length specs /\ snd plan = ending
      \/ exists spec e,
           specs !! length (fst plan) = Some spec
           /\ migration_target py_repr a cfg spec = Err e
           /\ snd plan = Some e).
Proof.
  induction specs as [|spec specs IH]; cbn [collect_from].
  - split; [constructor | left; split; reflexivity].
  - destruct (migration_target py_repr a cfg spec) as [item|e] eqn:E.
    + destruct (collect_from py_repr a cfg specs ending) as [more ending'].
      cbn [fst snd length take] in *.
      destruct IH as [Hall Hend]; split; [now constructor|].
      destruct Hend as [[Hlen Hsame]|(spec' & e & Hat & Hbad & Hsome)].
      * left; split; [now rewrite Hlen | exact Hsame].
      * right; exists spec', e; auto.
    + cbn [fst snd length take]; split; [constructor|].
      right; exists spec, e; auto.
Qed.

(** X12: the targets of the plan follow the specs, one per spec and in
    their order, until a spec cannot be resolved: each target is the
    spec's target table (its target database, target schema and target
    table, quoted by the project's policy), paired with the definition
    rendered from that spec.  All specs are turned into targets unless
    one of them lacks a field, and then its [KeyError] ends the plan. *)
Theorem targets_follow_the_specs py_repr a cfg :
  let specs := fst (get_archive_configs cfg) in
  let plan := collect_migration_targets py_repr a cfg in
  Forall2
    (fun (spec : gmap string string) (item : Relation * string) =>
       spec !! "target_database" = Some (database (fst item))
       /\ spec !! "target_schema" = Some (schema (fst item))
       /\ spec !! "target_table" = Some (identifier (fst item))
       /\ quote_policy (fst item) = quoting cfg
       /\ build_archive_data py_repr a spec = Ok (snd item))
    (take (length (fst plan)) specs) (fst plan)
  /\ (length (fst plan) = length specs
      /\ snd plan = snd (get_archive_configs cfg)
      \/ exists spec key,
           specs !! length (fst plan) = Some spec
           /\ spec !! key = None
           /\ snd plan = Some (KeyError key)).
Proof.
  intros specs plan; subst specs plan.
  unfold collect_migration_targets.
  destruct (get_archive_configs cfg) as [specs ending]; cbn [fst snd].
  destruct (collect_from_targets py_repr a cfg specs ending) as [Hall Hend].
  split.
  - eapply Forall2_impl; [exact Hall|].
    intros spec [relation contents]; cbn [fst snd].
    unfold migration_target, result_bind, getitem.
    destruct (spec !! "target_database"); [|discriminate].
    destruct (spec !! "target_schema"); [|discriminate].
    destruct (spec !! "target_table"); [|discriminate].
    destruct (build_archive_data py_repr a spec); [|discriminate].
    intros [= <- <-]; repeat split.
  - destruct Hend as [H|(spec & e & Hat & Hbad & Hsome)]; [now left|].
    right; exists spec.
    assert (exists key, spec !! key = None /\ e = KeyError key)
      as (key & Hnone & ->).
    { revert Hbad.
      unfold migration_target, build_archive_data, result_bind, getitem.
      repeat match goal with
             | |- context [spec !! ?k] =>
                 let E := fresh "E" in
                 destruct (spec !! k) eqn:E;
                   [|intros [= <-]; now exists k]
             end.
      discriminate. }
    exists key; auto.
Qed.

(** X13: [build_archive_data] succeeds exactly when the spec has the
    eight fields it reads; otherwise it raises the [KeyError] of the first
    missing one, in the order the script reads them. *)
Theorem build_archive_data_needs_eight_fields py_repr a archive :
  let keys := [ "source_database"; "source_schema"; "source_table";
                "target_database"; "target_schema"; "updated_at";
                "unique_key"; "target_table" ] in
  match build_archive_data py_repr a archive with
  | Ok _ => Forall (fun key => is_Some (archive !! key)) keys
  | Err e =>
      exists present key rest,
        keys = present ++ key :: rest
        /\ Forall (fun key => is_Some (archive !! key)) present
        /\ archive !! key = None
        /\ e = KeyError key
  end.
Proof.
  intros keys; subst keys.
  unfold build_archive_data, result_bind, getitem.
  destruct (archive !! "source_database") eqn:E1;
    [|exists [], "source_database"; eexists; repeat split; auto].
  destruct (archive !! "source_schema") eqn:E2;
    [|exists ["source_database"], "source_schema"; eexists;
      repeat split; auto; repeat constructor; now rewrite E1].
  destruct (archive !! "source_table") eqn:E3;
    [|exists ["source_database"; "source_schema"], "source_table"; eexists;
      repeat split; auto; repeat constructor; now rewrite ?E1, ?E2].
  destruct (archive !! "target_database") eqn:E4;
    [|exists ["source_database"; "source_schema"; "source_table"],
        "target_database"; eexists;
      repeat split; auto; repeat constructor; now rewrite ?E1, ?E2, ?E3].
  destruct (archive !! "target_schema") eqn:E5;
    [|exists ["source_database"; "source_schema"; "source_table";
              "target_database"], "target_schema"; eexists;
      repeat split; auto; repeat constructor;
      now rewrite ?E1, ?E2, ?E3, ?E4].
  destruct (archive !! "updated_at") eqn:E6;
    [|exists ["source_database"; "source_schema"; "source_table";
              "target_database"; "target_schema"], "updated_at"; eexists;
      repeat split; auto; repeat constructor;
      now rewrite ?E1, ?E2, ?E3, ?E4, ?E5].
  destruct (archive !! "unique_key") eqn:E7;
    [|exists ["source_database"; "source_schema"; "source_table";
              "target_database"; "target_schema"; "updated_at"],
        "unique_key"; eexists;
      repeat split; auto; repeat constructor;
      now rewrite ?E1, ?E2, ?E3, ?E4, ?E5, ?E6].
  destruct (archive !! "target_table") eqn:E8;
    [|exists ["source_database"; "source_schema"; "source_table";
              "target_database"; "target_schema"; "updated_at";
              "unique_key"], "target_table"; eexists;
      repeat split; auto; repeat constructor;
      now rewrite ?E1, ?E2, ?E3, ?E4, ?E5, ?E6, ?E7].
  repeat constructor; now rewrite ?E1, ?E2, ?E3, ?E4, ?E5, ?E6, ?E7, ?E8.
Qed.

(** X14: a configuration without archive groups: once the archive
    directory is named, [main] makes the directory, takes and gives back
    the connection and logs that the migration is complete; it asks the
    session for nothing, writes no file, and reports no backup and no
    file, whatever the switches. *)
Theorem empty_configuration_run py_repr normpath parsed cfg a p ps w :
  archive cfg = [] ->
  archive_paths cfg = p :: ps ->
  main py_repr normpath parsed cfg a w
  = (Ok ([], []),
     extend w [ MakeDirectory (normpath p);
                ConnectionAcquire "migration";
                ConnectionRelease "migration";
                LogInfo "Migration complete!" ]).
Proof.
  intros Harchive Hpaths.
  unfold main, collect_migration_targets, get_archive_configs.
  rewrite Hpaths, Harchive.
  cbn [get_archive_configs_from collect_from migration_loop].
  unfold bind, ret, make_directory, connection_named, logger_info, summary.
  cbn [fst snd].
  now rewrite !emit_extend, !extend_extend.
Qed.

Lemma empty_configuration_run_witness :
  fst (main Fixtures.single_quotes id (parse_args [])
         (Fixtures.project [])
         (Fixtures.adapter_of "postgres" Fixtures.refuses_repeats)
         (initial_world ∅))
  = Ok ([], []).
Proof.
  rewrite (empty_configuration_run Fixtures.single_quotes id (parse_args [])
             (Fixtures.project [])
             (Fixtures.adapter_of "postgres" Fixtures.refuses_repeats)
             "archives" [] (initial_world ∅) eq_refl eq_refl).
  reflexivity.
Defined.

(* ================================================================== *)
(** ** Running again *)

Lemma keeps_files_bind fs {A B} (c : M A) (k : A -> M B) :
  keeps_files fs c -> (forall x, keeps_files fs (k x)) ->
  keeps_files fs (bind c k).
Proof.
  intros Hc Hk w Hw; unfold bind.
  pose proof (Hc w Hw) as H1.
  destruct (c w) as [[x|e] w1]; cbn [snd] in *; [now apply Hk | exact H1].
Qed.

Lemma keeps_files_ret fs {A} (x : A) : keeps_files fs (ret x).
Proof. intros w Hw; exact Hw. Qed.

Lemma keeps_files_logger_info fs msg : keeps_files fs (logger_info msg).
Proof. intros w Hw; exact Hw. Qed.

(** The database side of a table never touches the files. *)
Lemma keeps_files_perform_table_migration fs a t :
  keeps_files fs (perform_table_migration a t).
Proof.
  intros w Hw.
  destruct (uses_perform_table_migration
              (fun e => is_session_request e || is_log e) a t
              ltac:(intros e He; now rewrite He)
              ltac:(intros e He; rewrite He; apply orb_true_r) w)
    as (events & _ & HK & _ & E).
  rewrite E; [exact Hw|].
  apply (filter_none_of_kind _ _ _ HK).
  intros [] H; try reflexivity; discriminate.
Qed.

Lemma keeps_files_write_migration_file fs target archive_path contents :
  is_Some (fs !! definition_path archive_path target) ->
  keeps_files fs (write_migration_file target archive_path contents).
Proof.
  intros [old Hold] w Hw.
  rewrite write_migration_file_run, Hw, Hold; exact Hw.
Qed.

Lemma keeps_files_migrate_one fs parsed a archive_path target contents lists :
  is_Some (fs !! definition_path archive_path target) ->
  keeps_files fs (migrate_one parsed a archive_path target contents lists).
Proof.
  intros Hthere; destruct lists as [backups_made archives_written].
  unfold migrate_one.
  apply keeps_files_bind.
  { destruct (migrate_database parsed).
    - apply keeps_files_bind; [apply keeps_files_logger_info|].
      intros _; apply keeps_files_bind;
        [apply keeps_files_perform_table_migration|].
      intros b; apply keeps_files_ret.
    - apply keeps_files_bind; [apply keeps_files_logger_info|].
      intros _; apply keeps_files_ret. }
  intros backups'; apply keeps_files_bind; [|intros x; apply keeps_files_ret].
  destruct (write_files parsed).
  - apply keeps_files_bind; [apply keeps_files_logger_info|].
    intros _; apply keeps_files_bind; [apply keeps_files_logger_info|].
    intros _; apply keeps_files_bind; [|intros x; apply keeps_files_ret].
    now apply keeps_files_write_migration_file.
  - apply keeps_files_bind; [apply keeps_files_logger_info|].
    intros _; apply keeps_files_ret.
Qed.

Lemma keeps_files_migration_loop fs parsed a archive_path targets ending lists :
  Forall (fun tc => is_Some (fs !! definition_path archive_path (fst tc)))
         targets ->
  keeps_files fs (migration_loop parsed a archive_path targets ending lists).
Proof.
  intros Hall; revert lists.
  induction Hall as [|[target contents] rest Hthere _ IH]; intros lists;
    cbn [migration_loop].
  - destruct ending; intros w Hw; exact Hw.
  - apply keeps_files_bind; [now apply keeps_files_migrate_one | apply IH].
Qed.

(** A table that went through with files written has its definition
    file afterwards. *)
Lemma migrate_one_leaves_definition parsed a archive_path target contents
    lists lists' w w' :
  write_files parsed = true ->
  migrate_one parsed a archive_path target contents lists w = (Ok lists', w') ->
  is_Some (files w' !! definition_path archive_path target).
Proof.
  intros Hwf; destruct lists as [backups_made archives_written].
  unfold migrate_one; rewrite Hwf.
  unfold bind at 1.
  match goal with
  | |- context [(if migrate_database parsed then ?c1 else ?c2) w] =>
      destruct ((if migrate_database parsed then c1 else c2) w)
        as [[backups'|e] w1]
  end; [|discriminate].
  unfold bind, logger_info, ret.
  rewrite write_migration_file_run; cbn [files emit].
  match goal with
  | |- context [match ?x with Some _ => _ | None => _ end] =>
      destruct x eqn:E
  end; intros [= _ <-]; cbn [files extend set_files emit].
  - cbn [files emit] in E; now rewrite E.
  - now rewrite lookup_insert_eq.
Qed.

Lemma migration_loop_leaves_definitions parsed a archive_path targets ending
    lists lists' w w' :
  write_files parsed = true ->
  migration_loop parsed a archive_path targets ending lists w = (Ok lists', w') ->
  Forall (fun tc => is_Some (files w' !! definition_path archive_path (fst tc)))
         targets.
Proof.
  intros Hwf; revert lists w.
  induction targets as [|[target contents] rest IH]; intros lists w Hrun.
  - constructor.
  - cbn [migration_loop] in Hrun; unfold bind in Hrun.
    destruct (migrate_one parsed a archive_path target contents lists w)
      as [[lists1|e] w1] eqn:Hone; [|discriminate].
    constructor; [|exact (IH _ _ Hrun)].
    cbn [fst].
    destruct (migrate_one_leaves_definition _ _ _ _ _ _ _ _ _ Hwf Hone)
      as [c Hc].
    destruct (uses_migration_loop parsed a archive_path rest ending lists1 w1)
      as (_ & _ & _ & Hsub & _).
    rewrite Hrun in Hsub; cbn [snd] in Hsub.
    exists c; exact (lookup_weaken _ _ _ _ Hc Hsub).
Qed.

(** X15: running again writes nothing.  After the tables have gone
    through once with files written, a later pass over the same tables,
    with any switches and any session, starting from files that contain
    those of the first pass, leaves every file as it finds it. *)
Theorem second_pass_writes_no_file parsed parsed' a a' archive_path targets
    ending ending' lists lists' done w w' :
  write_files parsed = true ->
  fst (migration_loop parsed a archive_path targets ending lists w) = Ok done ->
  files (snd (migration_loop parsed a archive_path targets ending lists w))
    ⊆ files w' ->
  files (snd (migration_loop parsed' a' archive_path targets ending' lists' w'))
  = files w'.
Proof.
  intros Hwf Hok Hsub.
  destruct (migration_loop parsed a archive_path targets ending lists w)
    as [r w1] eqn:Hrun; cbn [fst snd] in *; subst r.
  apply (keeps_files_migration_loop (files w')); [|reflexivity].
  eapply Forall_impl;
    [exact (migration_loop_leaves_definitions _ _ _ _ _ _ _ _ _ Hwf Hrun)|].
  intros tc [c Hc]; exists c; exact (lookup_weaken _ _ _ _ Hc Hsub).
Qed.

Lemma second_pass_writes_no_file_witness :
  let a := Fixtures.adapter_of "postgres" Fixtures.accepting in
  let targets := [(Fixtures.users, "one"); (Fixtures.users_elsewhere, "two")] in
  let w1 :=
    snd (migration_loop (parse_args ["--no-database-operations"]) a
           "archives" targets None ([], []) (initial_world ∅)) in
  files (snd (migration_loop (parse_args []) a "archives" targets None
                ([], []) w1))
  = files w1.
Proof.
  intros a targets w1.
  apply (second_pass_writes_no_file
           (parse_args ["--no-database-operations"]) (parse_args []) a a
           "archives" targets None None ([], []) ([], [])
           ([], [Fixtures.users; Fixtures.users_elsewhere])
           (initial_world ∅) w1).
  - reflexivity.
  - reflexivity.
  - reflexivity.
Defined.

(* ================================================================== *)
(** ** A run without database operations, file present or not *)

(** The loop body with the database left alone and files written: one
    call of the file writer, which writes exactly when the target has no
    definition file yet. *)
Lemma migrate_one_files_only parsed a archive_path target contents
    backups_made archives_written w :
  migrate_database parsed = false ->
  write_files parsed = true ->
  exists logs1 logs2,
    migrate_one parsed a archive_path target contents
      (backups_made, archives_written) w
    = (Ok (backups_made, archives_written ++ [target]),
       extend
         (match files w !! definition_path archive_path target with
          | None =>
              set_files
                (<[definition_path archive_path target := contents]> (files w))
                w
          | Some _ => w
          end)
         (map LogInfo logs1
            ++ [MakeFile (definition_path archive_path target) contents
                  (match files w !! definition_path archive_path target with
                   | None => true
                   | Some _ => false
                   end)]
            ++ map LogInfo logs2)).
Proof.
  intros Hdb Hfiles.
  unfold migrate_one; rewrite Hdb, Hfiles.
  unfold bind, logger_info, ret; cbv beta iota.
  rewrite write_migration_file_run.
  rewrite !emit_extend, !extend_extend.
  cbn [files extend].
  destruct (files w !! definition_path archive_path target); cbv beta iota.
  - exists [ "not migrating database for " +:+ relation_str target;
             "writing new sql file for " +:+ relation_str target;
             "Do not forget to remove or comment out the existing entry!" ],
           [ ("Could not write archive " +:+ relation_str target
                +:+ " to file ")
               +:+ definition_path archive_path target ].
    unfold extend; cbn [trace files module_RENAME_COLUMNS map app].
    rewrite <- ?app_assoc; reflexivity.
  - exists [ "not migrating database for " +:+ relation_str target;
             "writing new sql file for " +:+ relation_str target;
             "Do not forget to remove or comment out the existing entry!" ],
           [ ("Migrated archive " +:+ relation_str target +:+ " -> file at ")
               +:+ definition_path archive_path target ].
    unfold extend, set_files; cbn [trace files module_RENAME_COLUMNS map app].
    rewrite <- ?app_assoc; reflexivity.
Qed.

(** C7 as the spec words it fails: one group with one table, database
    operations off and file emission on, but the table's definition file
    is there already.  [main] ends normally, and no definition file has
    been written: the one call of the file writer answers false and the
    files are as before. *)
Lemma run_over_existing_definition_writes_nothing :
  let before : gmap string string :=
    <["archives/users_archive.sql" := "-- written by hand"]> ∅ in
  let parsed := parse_args ["--no-database-operations"] in
  let run :=
    main Fixtures.single_quotes id parsed
      (Fixtures.project [Fixtures.group_without_database])
      (Fixtures.adapter_of "postgres" Fixtures.accepting)
      (initial_world before) in
  migrate_database parsed = false
  /\ write_files parsed = true
  /\ (exists lists, fst run = Ok lists)
  /\ length (List.filter is_file_written (trace (snd run))) = 0
  /\ files (snd run) = before.
Proof.
  repeat split; try reflexivity.
  eexists; reflexivity.
Qed.

(** C7 (amended): one archive group with one table (the fields the
    script reads present), database operations off and file emission on.
    [main] ends normally with no backup made and the table in
    [archives_written], asks nothing of the database session, and calls
    the file writer exactly once, for the table's definition: the file is
    written exactly when there is none at that path yet, and is left as it
    is otherwise. *)
Theorem run_without_database_operations_writes_unless_present
    py_repr normpath parsed cfg a g tbl p ps ts ss st tt ua uk w :
  migrate_database parsed = false ->
  write_files parsed = true ->
  archive cfg = [g] ->
  tables g = Some [tbl] ->
  archive_paths cfg = p :: ps ->
  entries g !! "target_schema" = Some ts ->
  entries g !! "source_schema" = Some ss ->
  tbl !! "source_table" = Some st ->
  tbl !! "target_table" = Some tt ->
  tbl !! "updated_at" = Some ua ->
  tbl !! "unique_key" = Some uk ->
  let path := os_path_join (normpath p) (tt +:+ ".sql") in
  let fresh := match files w !! path with None => true | Some _ => false end in
  exists target contents w',
    main py_repr normpath parsed cfg a w = (Ok ([], [target]), w')
    /\ collect_migration_targets py_repr a cfg = ([(target, contents)], None)
    /\ identifier target = tt
    /\ List.filter is_session_request (events_since w w') = []
    /\ List.filter is_make_file (events_since w w')
       = [MakeFile path contents fresh]
    /\ length (List.filter is_file_written (events_since w w'))
       = (if fresh then 1 else 0)
    /\ files w'
       = (if fresh then <[path := contents]> (files w) else files w).
Proof.
  intros Hdb Hfiles Harchive Htables Hpaths Hts Hss Hst Htt Hua Huk path fresh.
  destruct (single_table_plan py_repr a cfg g tbl ts ss st tt ua uk
              Harchive Htables Hts Hss Hst Htt Hua Huk) as (contents & Hplan).
  set (target := Relation_create (relation_quote_character a)
                   (default (credentials_database cfg)
                            (entries g !! "target_database"))
                   ts tt (quoting cfg)) in *.
  destruct (migrate_one_files_only parsed a (normpath p) target contents
              [] [] (extend (extend w [MakeDirectory (normpath p)])
                       [ConnectionAcquire "migration"])
              Hdb Hfiles) as (logs1 & logs2 & Hone).
  change (definition_path (normpath p) target) with path in Hone.
  cbn [files extend] in Hone.
  exists target, contents.
  unfold main; rewrite Hpaths, Hplan.
  unfold bind at 1; unfold ret at 1.
  unfold bind at 1; unfold make_directory; rewrite emit_extend.
  unfold bind at 1; unfold connection_named; rewrite emit_extend.
  cbn [migration_loop]; unfold bind at 1; rewrite Hone.
  unfold ret at 1; rewrite emit_extend.
  unfold bind, logger_info, summary, ret; cbn [fst snd app map].
  rewrite !emit_extend, !extend_extend.
  eexists; split; [reflexivity|].
  split; [reflexivity|]. split; [reflexivity|].
  subst fresh.
  destruct (files w !! path);
    unfold events_since, emit, extend, set_files;
    cbn [trace files module_RENAME_COLUMNS];
    rewrite <- !app_assoc, drop_app_length;
    repeat split;
    rewrite ?List.filter_app;
    cbn [List.filter is_session_request is_make_file is_file_written app];
    rewrite ?List.filter_app;
    cbn [List.filter is_session_request is_make_file is_file_written app];
    rewrite ?no_requests_in_logs, ?no_files_in_logs, ?no_writes_in_logs;
    reflexivity.
Qed.

Lemma run_without_database_operations_writes_unless_present_witness :
  exists contents w',
    main Fixtures.single_quotes id (parse_args ["--no-database-operations"])
      (Fixtures.project [Fixtures.group_without_database])
      (Fixtures.adapter_of "postgres" Fixtures.accepting)
      (initial_world ∅)
    = (Ok ([], [Relation_create "`" "analytics" "snapshots" "users_archive"
                  Fixtures.no_quoting]),
       w')
    /\ List.filter is_make_file (trace w')
       = [MakeFile "archives/users_archive.sql" contents true]
    /\ files w' = <["archives/users_archive.sql" := contents]> ∅.
Proof.
  destruct (run_without_database_operations_writes_unless_present
              Fixtures.single_quotes id
              (parse_args ["--no-database-operations"])
              (Fixtures.project [Fixtures.group_without_database])
              (Fixtures.adapter_of "postgres" Fixtures.accepting)
              Fixtures.group_without_database Fixtures.users_table
              "archives" [] "snapshots" "public" "users" "users_archive"
              "ts" "id" (initial_world ∅)
              eq_refl eq_refl eq_refl eq_refl eq_refl eq_refl eq_refl
              eq_refl eq_refl eq_refl eq_refl)
    as (target & contents & w' & Hmain & Hplan & _ & _ & Hmf & _ & Hfiles).
  exists contents, w'.
  injection Hplan as <- _.
  split; [exact Hmain|]. split; [exact Hmf | exact Hfiles].
Defined.

(** The switches default to on; a switch and its unambiguous
    abbreviations turn it off, other tokens do not. *)
Example parse_args_switches :
  parse_args ["--profile"; "dev"]
  = {| debug := false; write_files := true; migrate_database := true |}
  /\ parse_args ["--no-d"; "--no-files"]
     = {| debug := false; write_files := false; migrate_database := false |}
  /\ parse_args ["--d"]
     = {| debug := true; write_files := true; migrate_database := true |}.
Proof. repeat split. Qed.
